(** * GeoJSON geometry codec (package geojson, geometry.go)

    A shallow embedding of the BSON geometry codec: the [Geometry] struct,
    [toPureGeometry] and the marshalling of the ordered [geometry] struct on
    the encode side, [decodeGeometry] and its shape extractors on the decode
    side.

    Modelling conventions.
    - The decoder builds slices and never tests one for nil, so on the
      decode side a slice is the [list] of its elements; the [[]] returned
      next to an error is Go's nil.  What the encoder writes does depend on
      whether a slice is nil, so on the encode side a slice is a [slice]:
      nil, or allocated with its elements.
    - A value of type [interface{}] as produced by the BSON reader is a
      [Value]; the nil interface is [VNil].
    - A function returning [(T, error)] returns a pair [T * option error];
      [None] is the nil error.
    - A function mutating its receiver [g *Geometry] takes the receiver and
      returns its final state together with the error.
    - The BSON library is outside the package.  It is modelled at the level
      of documents: what [bson.Marshal] writes for a [*geometry] is a [Doc],
      and [bson.Unmarshal] hands the decoder the same tree back as a
      [map[string]interface{}]. *)

From Stdlib Require Import ZArith String List Bool Lia.
From Stdlib Require Import Floats.SpecFloat.
Import ListNotations.

Local Open Scope string_scope.
Local Open Scope list_scope.

(** ** Numbers *)

(** [float64]: IEEE 754 binary64 (53 bits of precision, [emax = 1024]). *)
Definition float64 : Type := spec_float.

(** The Go conversion [float64(i)] of an integer: round to nearest, ties to
    even. *)
Definition float64_of_int (i : Z) : float64 :=
  binary_normalize 53 1024 i 0 false.

(** ** Dynamic values *)

(** The dynamic types an [interface{}] holds after [bson.Unmarshal] into a
    [map[string]interface{}]: arrays arrive as [primitive.A], embedded
    documents as [map[string]interface{}].  [VOther] stands for every other
    dynamic type (ObjectID, Decimal128, DateTime, ...), named by its tag. *)
Unset Elimination Schemes.
Inductive Value : Type :=
| VNil
| VBool (b : bool)
| VFloat64 (f : float64)
| VInt (i : Z)
| VInt32 (i : Z)
| VInt64 (i : Z)
| VString (s : string)
| VArray (a : list Value)
| VMap (m : list (string * Value))
| VOther (tag : string).
Set Elimination Schemes.

(** A document: the entries of a [map[string]interface{}], and also the
    ordered elements of an encoded BSON document. *)
Definition Doc : Type := list (string * Value).

(** [v, ok := object[key]]; a key is bound once in a map, so the first entry
    under the key is the entry. *)
Fixpoint lookup (key : string) (object : Doc) : option Value :=
  match object with
  | [] => None
  | (k, v) :: rest => if String.eqb k key then Some v else lookup key rest
  end.

(** [object[key]]: the nil interface when the key is absent. *)
Definition index (object : Doc) (key : string) : Value :=
  match lookup key object with
  | Some v => v
  | None => VNil
  end.

Definition keys (object : Doc) : list string := map fst object.

(** Induction over values that reaches into arrays and documents. *)
Section ValueInduction.
Variable P : Value -> Prop.
Hypothesis Hnil : P VNil.
Hypothesis Hbool : forall b, P (VBool b).
Hypothesis Hfloat : forall f, P (VFloat64 f).
Hypothesis Hint : forall i, P (VInt i).
Hypothesis Hint32 : forall i, P (VInt32 i).
Hypothesis Hint64 : forall i, P (VInt64 i).
Hypothesis Hstring : forall s, P (VString s).
Hypothesis Harray : forall a, Forall P a -> P (VArray a).
Hypothesis Hmap : forall m, Forall (fun kv => P (snd kv)) m -> P (VMap m).
Hypothesis Hother : forall tag, P (VOther tag).

Fixpoint Value_nested_ind (v : Value) : P v :=
  match v with
  | VNil => Hnil
  | VBool b => Hbool b
  | VFloat64 f => Hfloat f
  | VInt i => Hint i
  | VInt32 i => Hint32 i
  | VInt64 i => Hint64 i
  | VString s => Hstring s
  | VArray a =>
      Harray a
        ((fix go (l : list Value) : Forall P l :=
            match l with
            | [] => Forall_nil P
            | x :: l' => Forall_cons x (Value_nested_ind x) (go l')
            end) a)
  | VMap m =>
      Hmap m
        ((fix go (l : Doc) : Forall (fun kv => P (snd kv)) l :=
            match l with
            | [] => Forall_nil _
            | kv :: l' =>
                Forall_cons kv (Value_nested_ind (snd kv)) (go l')
            end) m)
  | VOther tag => Hother tag
  end.
End ValueInduction.

(** ** The geometry model *)

(** [type GeometryType string] *)
Definition GeometryType : Type := string.

Definition GeometryPoint : GeometryType := "Point".
Definition GeometryMultiPoint : GeometryType := "MultiPoint".
Definition GeometryLineString : GeometryType := "LineString".
Definition GeometryMultiLineString : GeometryType := "MultiLineString".
Definition GeometryPolygon : GeometryType := "Polygon".
Definition GeometryMultiPolygon : GeometryType := "MultiPolygon".
Definition GeometryCollection : GeometryType := "GeometryCollection".

(** [type Point []float64] *)
Definition Point : Type := list float64.

(** [type Geometry struct]: one record carrying all seven payload fields.
    The field [Geometries []*Geometry] holds the children themselves. *)
Unset Elimination Schemes.
Inductive Geometry : Type :=
  mkGeometry {
    gType : GeometryType;
    gPoint : Point;
    gLineString : list Point;
    gPolygon : list (list Point);
    gMultiPoint : list Point;
    gMultiLineString : list (list Point);
    gMultiPolygon : list (list (list Point));
    gGeometries : list Geometry
  }.
Set Elimination Schemes.

(** [&Geometry{}] *)
Definition zeroGeometry : Geometry := mkGeometry "" [] [] [] [] [] [] [].

(** Field assignments [g.F = x]. *)
Definition set_Type (g : Geometry) (t : GeometryType) : Geometry :=
  mkGeometry t (gPoint g) (gLineString g) (gPolygon g) (gMultiPoint g)
    (gMultiLineString g) (gMultiPolygon g) (gGeometries g).
Definition set_Point (g : Geometry) (x : Point) : Geometry :=
  mkGeometry (gType g) x (gLineString g) (gPolygon g) (gMultiPoint g)
    (gMultiLineString g) (gMultiPolygon g) (gGeometries g).
Definition set_LineString (g : Geometry) (x : list Point) : Geometry :=
  mkGeometry (gType g) (gPoint g) x (gPolygon g) (gMultiPoint g)
    (gMultiLineString g) (gMultiPolygon g) (gGeometries g).
Definition set_Polygon (g : Geometry) (x : list (list Point)) : Geometry :=
  mkGeometry (gType g) (gPoint g) (gLineString g) x (gMultiPoint g)
    (gMultiLineString g) (gMultiPolygon g) (gGeometries g).
Definition set_MultiPoint (g : Geometry) (x : list Point) : Geometry :=
  mkGeometry (gType g) (gPoint g) (gLineString g) (gPolygon g) x
    (gMultiLineString g) (gMultiPolygon g) (gGeometries g).
Definition set_MultiLineString (g : Geometry) (x : list (list Point))
  : Geometry :=
  mkGeometry (gType g) (gPoint g) (gLineString g) (gPolygon g)
    (gMultiPoint g) x (gMultiPolygon g) (gGeometries g).
Definition set_MultiPolygon (g : Geometry) (x : list (list (list Point)))
  : Geometry :=
  mkGeometry (gType g) (gPoint g) (gLineString g) (gPolygon g)
    (gMultiPoint g) (gMultiLineString g) x (gGeometries g).
Definition set_Geometries (g : Geometry) (x : list Geometry) : Geometry :=
  mkGeometry (gType g) (gPoint g) (gLineString g) (gPolygon g)
    (gMultiPoint g) (gMultiLineString g) (gMultiPolygon g) x.

(** The constructors. *)
Definition NewPoint (coordinate : Point) : Geometry :=
  mkGeometry GeometryPoint coordinate [] [] [] [] [] [].
Definition NewMultiPoint (coordinates : list Point) : Geometry :=
  mkGeometry GeometryMultiPoint [] [] [] coordinates [] [] [].
Definition NewLineString (coordinates : list Point) : Geometry :=
  mkGeometry GeometryLineString [] coordinates [] [] [] [] [].
Definition NewMultiLineString (lines : list (list Point)) : Geometry :=
  mkGeometry GeometryMultiLineString [] [] [] [] lines [] [].
Definition NewPolygon (polygon : list (list Point)) : Geometry :=
  mkGeometry GeometryPolygon [] [] polygon [] [] [] [].
Definition NewMultiPolygon (polygons : list (list (list Point))) : Geometry :=
  mkGeometry GeometryMultiPolygon [] [] [] [] [] polygons [].
Definition NewGeometryCollection (geometries : list Geometry) : Geometry :=
  mkGeometry GeometryCollection [] [] [] [] [] [] geometries.

(** The variant predicates. *)
Definition IsPoint (g : Geometry) : bool :=
  String.eqb (gType g) GeometryPoint.
Definition IsMultiPoint (g : Geometry) : bool :=
  String.eqb (gType g) GeometryMultiPoint.
Definition IsLineString (g : Geometry) : bool :=
  String.eqb (gType g) GeometryLineString.
Definition IsMultiLineString (g : Geometry) : bool :=
  String.eqb (gType g) GeometryMultiLineString.
Definition IsPolygon (g : Geometry) : bool :=
  String.eqb (gType g) GeometryPolygon.
Definition IsMultiPolygon (g : Geometry) : bool :=
  String.eqb (gType g) GeometryMultiPolygon.
Definition IsCollection (g : Geometry) : bool :=
  String.eqb (gType g) GeometryCollection.

(** Induction over geometries that reaches into the children. *)
Section GeometryInduction.
Variable P : Geometry -> Prop.
Hypothesis Hstep :
  forall t p ls pg mp mls mpg gs,
    Forall P gs -> P (mkGeometry t p ls pg mp mls mpg gs).

Fixpoint Geometry_nested_ind (g : Geometry) : P g :=
  match g with
  | mkGeometry t p ls pg mp mls mpg gs =>
      Hstep t p ls pg mp mls mpg gs
        ((fix go (l : list Geometry) : Forall P l :=
            match l with
            | [] => Forall_nil P
            | x :: l' => Forall_cons x (Geometry_nested_ind x) (go l')
            end) gs)
  end.
End GeometryInduction.

(** ** Errors *)

(** One constructor per error message built by the decoder; the argument is
    the value printed by [%v]. *)
Inductive error : Type :=
| TypeNotDefined                      (* "type property not defined" *)
| TypeNotString                       (* "type property not string" *)
| NotValidPosition (data : Value)     (* "not a valid position, got %v" *)
| NotValidCoordinate (coord : Value)  (* "not a valid coordinate, got %v" *)
| NotValidPositionSet (data : Value)  (* "not a valid set of positions, got %v" *)
| NotValidPath (data : Value)         (* "not a valid path, got %v" *)
| NotValidPolygon (data : Value)      (* "not a valid polygon, got %v" *)
| NotValidGeometries (data : Value).  (* "not a valid set of geometries, got %v" *)

(** The error taxonomy of the specification. *)
Inductive ErrorKind : Type :=
| MissingType
| InvalidType
| InvalidPosition
| InvalidPositionSequence
| InvalidPathSequence
| InvalidPolygonSequence
| InvalidGeometrySequence.

Definition kind (e : error) : ErrorKind :=
  match e with
  | TypeNotDefined => MissingType
  | TypeNotString => InvalidType
  | NotValidPosition _ => InvalidPosition
  | NotValidCoordinate _ => InvalidPosition
  | NotValidPositionSet _ => InvalidPositionSequence
  | NotValidPath _ => InvalidPathSequence
  | NotValidPolygon _ => InvalidPolygonSequence
  | NotValidGeometries _ => InvalidGeometrySequence
  end.

(** The kind a call failed with, if it failed. *)
Definition failure {A : Type} (r : A * option error) : option ErrorKind :=
  option_map kind (snd r).

(** ** Decoding: the shape extractors *)

(** The [for _, coord := range coords] loop of [decodePosition]; [result]
    is the slice built so far. *)
Fixpoint decodePosition_loop (coords : list Value) (result : Point)
  : Point * option error :=
  match coords with
  | [] => (result, None)
  | coord :: rest =>
      match coord with
      | VFloat64 f => decodePosition_loop rest (result ++ [f])
      | VInt f => decodePosition_loop rest (result ++ [float64_of_int f])
      | VInt32 f => decodePosition_loop rest (result ++ [float64_of_int f])
      | VInt64 f => decodePosition_loop rest (result ++ [float64_of_int f])
      | _ => ([], Some (NotValidCoordinate coord))
      end
  end.

Definition decodePosition (data : Value) : Point * option error :=
  match data with
  | VArray coords => decodePosition_loop coords []
  | _ => ([], Some (NotValidPosition data))
  end.

Fixpoint decodePositionSet_loop (points : list Value) (result : list Point)
  : list Point * option error :=
  match points with
  | [] => (result, None)
  | point :: rest =>
      match decodePosition point with
      | (p, None) => decodePositionSet_loop rest (result ++ [p])
      | (_, Some err) => ([], Some err)
      end
  end.

Definition decodePositionSet (data : Value) : list Point * option error :=
  match data with
  | VArray points => decodePositionSet_loop points []
  | _ => ([], Some (NotValidPositionSet data))
  end.

Fixpoint decodePathSet_loop (sets : list Value) (result : list (list Point))
  : list (list Point) * option error :=
  match sets with
  | [] => (result, None)
  | set :: rest =>
      match decodePositionSet set with
      | (s, None) => decodePathSet_loop rest (result ++ [s])
      | (_, Some err) => ([], Some err)
      end
  end.

Definition decodePathSet (data : Value)
  : list (list Point) * option error :=
  match data with
  | VArray sets => decodePathSet_loop sets []
  | _ => ([], Some (NotValidPath data))
  end.

Fixpoint decodePolygonSet_loop (polygons : list Value)
  (result : list (list (list Point)))
  : list (list (list Point)) * option error :=
  match polygons with
  | [] => (result, None)
  | polygon :: rest =>
      match decodePathSet polygon with
      | (p, None) => decodePolygonSet_loop rest (result ++ [p])
      | (_, Some err) => ([], Some err)
      end
  end.

Definition decodePolygonSet (data : Value)
  : list (list (list Point)) * option error :=
  match data with
  | VArray polygons => decodePolygonSet_loop polygons []
  | _ => ([], Some (NotValidPolygon data))
  end.

(** ** Decoding: geometries *)

(** The [switch g.Type] of [decodeGeometry], entered once [g.Type] is set.
    [geoms] is the outcome of [decodeGeometries(object["geometries"])], which
    only the [GeometryCollection] case uses. *)
Definition decodePayload (geoms : list Geometry * option error)
  (g : Geometry) (object : Doc) : Geometry * option error :=
  if String.eqb (gType g) GeometryPoint then
    let '(x, err) := decodePosition (index object "coordinates") in
    (set_Point g x, err)
  else if String.eqb (gType g) GeometryMultiPoint then
    let '(x, err) := decodePositionSet (index object "coordinates") in
    (set_MultiPoint g x, err)
  else if String.eqb (gType g) GeometryLineString then
    let '(x, err) := decodePositionSet (index object "coordinates") in
    (set_LineString g x, err)
  else if String.eqb (gType g) GeometryMultiLineString then
    let '(x, err) := decodePathSet (index object "coordinates") in
    (set_MultiLineString g x, err)
  else if String.eqb (gType g) GeometryPolygon then
    let '(x, err) := decodePathSet (index object "coordinates") in
    (set_Polygon g x, err)
  else if String.eqb (gType g) GeometryMultiPolygon then
    let '(x, err) := decodePolygonSet (index object "coordinates") in
    (set_MultiPolygon g x, err)
  else if String.eqb (gType g) GeometryCollection then
    let '(x, err) := geoms in
    (set_Geometries g x, err)
  else (g, None).

(** The body of [decodeGeometry], with the recursive call abstracted as
    [geoms]. *)
Definition decodeGeometryWith (geoms : list Geometry * option error)
  (g : Geometry) (object : Doc) : Geometry * option error :=
  match lookup "type" object with
  | None => (g, Some TypeNotDefined)
  | Some t =>
      match t with
      | VString s => decodePayload geoms (set_Type g s) object
      | _ => (g, Some TypeNotString)
      end
  end.

(** How the [for _, v := range vs] loop of [decodeGeometries] ends: by
    [return nil, err], or by falling out of the loop (at its end or through
    [break]) with the slice built so far. *)
Inductive loop_exit : Type :=
| Returned (err : error)
| Left (geometries : list Geometry).

(** [decodeGeometries].  The recursion is structural in the value: the loop
    visits the elements of the array, and the child document is searched for
    its [geometries] entry while the child is decoded. *)
Fixpoint decodeGeometries (data : Value) : list Geometry * option error :=
  match data with
  | VArray vs =>
      let exit :=
        (fix loop (todo : list Value) (geometries : list Geometry)
           : loop_exit :=
           match todo with
           | [] => Left geometries
           | v :: rest =>
               match v with
               | VMap vmap =>
                   let geoms :=
                     (fix at_geometries (m : Doc)
                        : list Geometry * option error :=
                        match m with
                        | [] => ([], Some (NotValidGeometries VNil))
                        | (k, x) :: m' =>
                            if String.eqb k "geometries"
                            then decodeGeometries x
                            else at_geometries m'
                        end) vmap in
                   match decodeGeometryWith geoms zeroGeometry vmap with
                   | (g, None) => loop rest (geometries ++ [g])
                   | (_, Some err) => Returned err
                   end
               | _ => Left geometries
               end
           end) vs [] in
      match exit with
      | Returned err => ([], Some err)
      | Left geometries =>
          if Nat.eqb (length geometries) (length vs)
          then (geometries, None)
          else ([], Some (NotValidGeometries data))
      end
  | _ => ([], Some (NotValidGeometries data))
  end.

(** [decodeGeometry(g, object)]: the final state of [g] and the error. *)
Definition decodeGeometry (g : Geometry) (object : Doc)
  : Geometry * option error :=
  decodeGeometryWith (decodeGeometries (index object "geometries")) g object.

(** The loop of [decodeGeometries], stated with [decodeGeometry]. *)
Fixpoint decodeGeometries_loop (todo : list Value)
  (geometries : list Geometry) : loop_exit :=
  match todo with
  | [] => Left geometries
  | v :: rest =>
      match v with
      | VMap vmap =>
          match decodeGeometry zeroGeometry vmap with
          | (g, None) => decodeGeometries_loop rest (geometries ++ [g])
          | (_, Some err) => Returned err
          end
      | _ => Left geometries
      end
  end.

(** The receiver after [UnmarshalBSON] on data the adapter read as the
    document [object] ([len(data) > 0] and [bson.Unmarshal] succeeded). *)
Definition UnmarshalBSON (g : Geometry) (object : Doc)
  : Geometry * option error :=
  decodeGeometry g object.

(** [UnmarshalGeometry], on data the adapter read as [object]: a fresh
    [&Geometry{}] is filled in, and [nil] is returned with the error. *)
Definition UnmarshalGeometry (object : Doc)
  : option Geometry * option error :=
  match UnmarshalBSON zeroGeometry object with
  | (g, None) => (Some g, None)
  | (_, Some err) => (None, Some err)
  end.

(** ** Encoding *)

(** A Go slice as the encoder meets it: nil, or allocated with its elements
    (none, perhaps). *)
Inductive slice (A : Type) : Type :=
| nil_slice
| alloc (l : list A).
Arguments nil_slice {A}.
Arguments alloc {A} l.

Definition elements {A : Type} (s : slice A) : list A :=
  match s with
  | nil_slice => []
  | alloc l => l
  end.

(** [len(s)] *)
Definition len {A : Type} (s : slice A) : nat := length (elements s).

(** A [Geometry] value as the encoder receives it: the struct with each of
    its slices nil or allocated, at every depth.  The children of
    [Geometries] are the (non-nil) geometries pointed to. *)
Unset Elimination Schemes.
Inductive GoGeometry : Type :=
  mkGo {
    vType : GeometryType;
    vPoint : slice float64;
    vLineString : slice (slice float64);
    vPolygon : slice (slice (slice float64));
    vMultiPoint : slice (slice float64);
    vMultiLineString : slice (slice (slice float64));
    vMultiPolygon : slice (slice (slice (slice float64)));
    vGeometries : slice GoGeometry
  }.
Set Elimination Schemes.

(** The elements of nested slices. *)
Definition elements2 (s : slice (slice float64)) : list Point :=
  map elements (elements s).
Definition elements3 (s : slice (slice (slice float64)))
  : list (list Point) :=
  map elements2 (elements s).
Definition elements4 (s : slice (slice (slice (slice float64))))
  : list (list (list Point)) :=
  map elements3 (elements s).

(** The geometry a Go value holds, each slice taken as its elements. *)
Fixpoint contents (G : GoGeometry) : Geometry :=
  mkGeometry (vType G)
    (elements (vPoint G))
    (elements2 (vLineString G))
    (elements3 (vPolygon G))
    (elements2 (vMultiPoint G))
    (elements3 (vMultiLineString G))
    (elements4 (vMultiPolygon G))
    (match vGeometries G with
     | nil_slice => []
     | alloc l => map contents l
     end).

(** Induction over Go values that reaches into the children. *)
Section GoGeometryInduction.
Variable P : GoGeometry -> Prop.
Hypothesis Hstep :
  forall t p ls pg mp mls mpg gs,
    Forall P (elements gs) -> P (mkGo t p ls pg mp mls mpg gs).

Fixpoint GoGeometry_nested_ind (G : GoGeometry) : P G :=
  match G with
  | mkGo t p ls pg mp mls mpg gs =>
      Hstep t p ls pg mp mls mpg gs
        (match gs as s return Forall P (elements s) with
         | nil_slice => Forall_nil P
         | alloc l0 =>
             (fix go (l : list GoGeometry) : Forall P l :=
                match l with
                | [] => Forall_nil P
                | x :: l' => Forall_cons x (GoGeometry_nested_ind x) (go l')
                end) l0
         end)
  end.
End GoGeometryInduction.

(** What the [interface{}] field [geometry.Coordinates] holds once set: one
    of the four slice types of the payload fields. *)
Inductive coordinates : Type :=
| OfPoint (p : slice float64)
| OfPoints (ps : slice (slice float64))
| OfPaths (pss : slice (slice (slice float64)))
| OfPolygons (psss : slice (slice (slice (slice float64)))).

(** [type geometry struct], whose field order fixes the order of the BSON
    elements.  An [interface{}] field is [None] while it is nil; set to a
    slice it is not nil, even when the slice is. *)
Record geometry : Type :=
  mkgeometry {
    geoType : GeometryType;
    geoCoordinates : option coordinates;
    geoGeometries : option (slice GoGeometry)
  }.

Definition toPureGeometry (g : GoGeometry) : geometry :=
  let geo := mkgeometry (vType g) None None in
  if String.eqb (vType g) GeometryPoint then
    mkgeometry (geoType geo) (Some (OfPoint (vPoint g))) (geoGeometries geo)
  else if String.eqb (vType g) GeometryMultiPoint then
    mkgeometry (geoType geo) (Some (OfPoints (vMultiPoint g)))
      (geoGeometries geo)
  else if String.eqb (vType g) GeometryLineString then
    mkgeometry (geoType geo) (Some (OfPoints (vLineString g)))
      (geoGeometries geo)
  else if String.eqb (vType g) GeometryMultiLineString then
    mkgeometry (geoType geo) (Some (OfPaths (vMultiLineString g)))
      (geoGeometries geo)
  else if String.eqb (vType g) GeometryPolygon then
    mkgeometry (geoType geo) (Some (OfPaths (vPolygon g))) (geoGeometries geo)
  else if String.eqb (vType g) GeometryMultiPolygon then
    mkgeometry (geoType geo) (Some (OfPolygons (vMultiPolygon g)))
      (geoGeometries geo)
  else if String.eqb (vType g) GeometryCollection then
    mkgeometry (geoType geo) (geoCoordinates geo) (Some (vGeometries g))
  else geo.

(** The document adapter ([bson.Marshal] on a [*geometry]) is outside the
    package; it is modelled as far as the struct tags of [geometry] direct
    it.  A nil slice is written as null, an allocated slice as the array of
    its elements, a [float64] as a double. *)
Definition value_of_slice {A : Type} (render : A -> Value) (s : slice A)
  : Value :=
  match s with
  | nil_slice => VNil
  | alloc l => VArray (map render l)
  end.

Definition value_of_Point (p : slice float64) : Value :=
  value_of_slice VFloat64 p.
Definition value_of_Points (ps : slice (slice float64)) : Value :=
  value_of_slice value_of_Point ps.
Definition value_of_Paths (pss : slice (slice (slice float64))) : Value :=
  value_of_slice value_of_Points pss.
Definition value_of_Polygons (psss : slice (slice (slice (slice float64))))
  : Value :=
  value_of_slice value_of_Paths psss.

Definition value_of_coordinates (c : coordinates) : Value :=
  match c with
  | OfPoint p => value_of_Point p
  | OfPoints ps => value_of_Points ps
  | OfPaths pss => value_of_Paths pss
  | OfPolygons psss => value_of_Polygons psss
  end.

(** [omitempty] on an [interface{}] field.  The nil interface is always
    dropped.  Whether a non-nil interface holding a slice of length zero
    (nil or not) is dropped too depends on the adapter: it either tests the
    interface alone, or looks through it at the slice. *)
Inductive omitempty_rule : Type :=
| NilInterface
| ZeroLength.

Definition empty_coordinates (rule : omitempty_rule) (c : option coordinates)
  : bool :=
  match c with
  | None => true
  | Some c' =>
      match rule with
      | NilInterface => false
      | ZeroLength =>
          match c' with
          | OfPoint p => Nat.eqb (len p) 0
          | OfPoints ps => Nat.eqb (len ps) 0
          | OfPaths pss => Nat.eqb (len pss) 0
          | OfPolygons psss => Nat.eqb (len psss) 0
          end
      end
  end.

Definition empty_geometries (rule : omitempty_rule)
  (gs : option (slice GoGeometry)) : bool :=
  match gs with
  | None => true
  | Some l =>
      match rule with
      | NilInterface => false
      | ZeroLength => Nat.eqb (len l) 0
      end
  end.

(** The elements written for a [geometry], in field order; [coords] and
    [geoms] are the renderings of the two payload fields.  The tag of [type]
    has no [omitempty]. *)
Definition marshal_fields (rule : omitempty_rule) (geo : geometry)
  (coords geoms : Value) : Doc :=
  [("type", VString (geoType geo))]
  ++ (if empty_coordinates rule (geoCoordinates geo) then []
      else [("coordinates", coords)])
  ++ (if empty_geometries rule (geoGeometries geo) then []
      else [("geometries", geoms)]).

Definition coordinates_value (geo : geometry) : Value :=
  match geoCoordinates geo with
  | Some c => value_of_coordinates c
  | None => VNil
  end.

(** [bson.Marshal(geo)]: every child of [geo.Geometries] is written by its
    own marshaller [child]. *)
Definition marshal (rule : omitempty_rule) (child : GoGeometry -> Doc)
  (geo : geometry) : Doc :=
  marshal_fields rule geo (coordinates_value geo)
    (match geoGeometries geo with
     | Some gs => value_of_slice (fun c => VMap (child c)) gs
     | None => VNil
     end).

(** The document [MarshalBSON] writes for [g]; the error it returns is the
    adapter's.  [geo.Geometries], when set, is [g.Geometries] itself, which
    makes the recursion structural. *)
Fixpoint MarshalBSON (rule : omitempty_rule) (g : GoGeometry) : Doc :=
  let geo := toPureGeometry g in
  marshal_fields rule geo (coordinates_value geo)
    (match vGeometries g with
     | nil_slice => VNil
     | alloc l => VArray (map (fun c => VMap (MarshalBSON rule c)) l)
     end).

(** No slice of the payload the tag selects is nil, at any depth, and so for
    every child of a collection. *)
Definition allocated_slice {A : Type} (inner : A -> bool) (s : slice A)
  : bool :=
  match s with
  | nil_slice => false
  | alloc l => forallb inner l
  end.

Definition allocated_Point (p : slice float64) : bool :=
  allocated_slice (fun _ => true) p.
Definition allocated_Points (ps : slice (slice float64)) : bool :=
  allocated_slice allocated_Point ps.
Definition allocated_Paths (pss : slice (slice (slice float64))) : bool :=
  allocated_slice allocated_Points pss.
Definition allocated_Polygons (psss : slice (slice (slice (slice float64))))
  : bool :=
  allocated_slice allocated_Paths psss.

Fixpoint allocated (g : GoGeometry) : bool :=
  if String.eqb (vType g) GeometryPoint then allocated_Point (vPoint g)
  else if String.eqb (vType g) GeometryMultiPoint
  then allocated_Points (vMultiPoint g)
  else if String.eqb (vType g) GeometryLineString
  then allocated_Points (vLineString g)
  else if String.eqb (vType g) GeometryMultiLineString
  then allocated_Paths (vMultiLineString g)
  else if String.eqb (vType g) GeometryPolygon
  then allocated_Paths (vPolygon g)
  else if String.eqb (vType g) GeometryMultiPolygon
  then allocated_Polygons (vMultiPolygon g)
  else if String.eqb (vType g) GeometryCollection
  then match vGeometries g with
       | nil_slice => false
       | alloc l => forallb allocated l
       end
  else true.

(** The payload slice the tag selects is nil (for a tag that selects
    one). *)
Definition nil_payload (g : GoGeometry) : bool :=
  let is_nil {A : Type} (s : slice A) : bool :=
    match s with nil_slice => true | alloc _ => false end in
  if String.eqb (vType g) GeometryPoint then is_nil (vPoint g)
  else if String.eqb (vType g) GeometryMultiPoint then is_nil (vMultiPoint g)
  else if String.eqb (vType g) GeometryLineString then is_nil (vLineString g)
  else if String.eqb (vType g) GeometryMultiLineString
  then is_nil (vMultiLineString g)
  else if String.eqb (vType g) GeometryPolygon then is_nil (vPolygon g)
  else if String.eqb (vType g) GeometryMultiPolygon
  then is_nil (vMultiPolygon g)
  else if String.eqb (vType g) GeometryCollection then is_nil (vGeometries g)
  else false.

(** A geometry as a Go value with every slice allocated. *)
Fixpoint allocate (g : Geometry) : GoGeometry :=
  mkGo (gType g)
    (alloc (gPoint g))
    (alloc (map alloc (gLineString g)))
    (alloc (map (fun ps => alloc (map alloc ps)) (gPolygon g)))
    (alloc (map alloc (gMultiPoint g)))
    (alloc (map (fun ps => alloc (map alloc ps)) (gMultiLineString g)))
    (alloc (map (fun pss => alloc (map (fun ps => alloc (map alloc ps)) pss))
              (gMultiPolygon g)))
    (alloc (map allocate (gGeometries g))).

(** ** Shapes, as the specification words them *)

Definition coordinate_tags : list GeometryType :=
  [GeometryPoint; GeometryMultiPoint; GeometryLineString;
   GeometryMultiLineString; GeometryPolygon; GeometryMultiPolygon].

Definition recognized_tags : list GeometryType :=
  coordinate_tags ++ [GeometryCollection].

Definition mem (t : GeometryType) (ts : list GeometryType) : bool :=
  existsb (String.eqb t) ts.

(** The nesting depth the specification requires of [coordinates]. *)
Definition required_depth (t : GeometryType) : option nat :=
  if String.eqb t GeometryPoint then Some 1
  else if String.eqb t GeometryMultiPoint then Some 2
  else if String.eqb t GeometryLineString then Some 2
  else if String.eqb t GeometryMultiLineString then Some 3
  else if String.eqb t GeometryPolygon then Some 3
  else if String.eqb t GeometryMultiPolygon then Some 4
  else None.

(** A number of an accepted representation. *)
Definition is_number (v : Value) : bool :=
  match v with
  | VFloat64 _ | VInt _ | VInt32 _ | VInt64 _ => true
  | _ => false
  end.

(** The number a value stands for, integers normalised to floating point. *)
Definition number (v : Value) : option float64 :=
  match v with
  | VFloat64 f => Some f
  | VInt i | VInt32 i | VInt64 i => Some (float64_of_int i)
  | _ => None
  end.


(** The first element that is not a number. *)
Fixpoint first_non_number (l : list Value) : option Value :=
  match l with
  | [] => None
  | x :: rest => if is_number x then first_non_number rest else Some x
  end.

(** The numbers of a sequence, in order, leaving out what is no number. *)
Fixpoint numbers (l : list Value) : list float64 :=
  match l with
  | [] => []
  | x :: rest =>
      match number x with
      | Some f => f :: numbers rest
      | None => numbers rest
      end
  end.

(** The bracket depth of a value: 0 for a leaf, one more than its deepest
    element for a sequence. *)
Fixpoint nesting_depth (v : Value) : nat :=
  match v with
  | VArray a => S (fold_right Nat.max 0 (map nesting_depth a))
  | _ => 0
  end.

(** No sequence inside the value (the value included) is empty. *)
Fixpoint no_empty_sequence (v : Value) : bool :=
  match v with
  | VArray a => negb (Nat.eqb (length a) 0) && forallb no_empty_sequence a
  | _ => true
  end.

(** [shaped d v]: [v] is nested sequences exactly [d] deep with numbers at
    the leaves. *)
Fixpoint shaped (d : nat) (v : Value) : bool :=
  match d with
  | O => is_number v
  | S d' =>
      match v with
      | VArray a => forallb (shaped d') a
      | _ => false
      end
  end.

(** The error kind of a nesting level that is not a sequence. *)
Definition level_kind (d : nat) : ErrorKind :=
  match d with
  | 0 | 1 => InvalidPosition
  | 2 => InvalidPositionSequence
  | 3 => InvalidPathSequence
  | _ => InvalidPolygonSequence
  end.

Fixpoint first_some {A : Type} (l : list (option A)) : option A :=
  match l with
  | [] => None
  | Some a :: _ => Some a
  | None :: rest => first_some rest
  end.

(** Where a walk down [d] levels first meets a mismatch, and its kind. *)
Fixpoint mismatch (d : nat) (v : Value) : option ErrorKind :=
  match d with
  | O => if is_number v then None else Some InvalidPosition
  | S d' =>
      match v with
      | VArray a => first_some (map (mismatch d') a)
      | _ => Some (level_kind d)
      end
  end.

(** The payload field the tag selects is populated and every other payload
    field is empty. *)
Definition populated {A : Type} (l : list A) : bool :=
  negb (Nat.eqb (length l) 0).
Definition unset {A : Type} (l : list A) : bool := Nat.eqb (length l) 0.

Definition payload_matches (g : Geometry) : bool :=
  let t := gType g in
  (if String.eqb t GeometryPoint
   then populated (gPoint g) else unset (gPoint g))
  && (if String.eqb t GeometryLineString
      then populated (gLineString g) else unset (gLineString g))
  && (if String.eqb t GeometryPolygon
      then populated (gPolygon g) else unset (gPolygon g))
  && (if String.eqb t GeometryMultiPoint
      then populated (gMultiPoint g) else unset (gMultiPoint g))
  && (if String.eqb t GeometryMultiLineString
      then populated (gMultiLineString g) else unset (gMultiLineString g))
  && (if String.eqb t GeometryMultiPolygon
      then populated (gMultiPolygon g) else unset (gMultiPolygon g))
  && (if String.eqb t GeometryCollection
      then populated (gGeometries g) else unset (gGeometries g)).

(** The length of the payload field the tag selects. *)
Definition payload_length (g : Geometry) : nat :=
  let t := gType g in
  if String.eqb t GeometryPoint then length (gPoint g)
  else if String.eqb t GeometryMultiPoint then length (gMultiPoint g)
  else if String.eqb t GeometryLineString then length (gLineString g)
  else if String.eqb t GeometryMultiLineString
  then length (gMultiLineString g)
  else if String.eqb t GeometryPolygon then length (gPolygon g)
  else if String.eqb t GeometryMultiPolygon then length (gMultiPolygon g)
  else if String.eqb t GeometryCollection then length (gGeometries g)
  else 0.

(** The adapter writes the payload of [g]: the tag is one of the seven and,
    where [omitempty] looks through the interface, the payload it selects
    is not empty. *)
Definition payload_written (rule : omitempty_rule) (g : Geometry) : bool :=
  match rule with
  | NilInterface => mem (gType g) recognized_tags
  | ZeroLength => negb (Nat.eqb (payload_length g) 0)
  end.

(** A well-formed geometry: one of the seven variants, the tag matching the
    populated payload field, every child of a collection well-formed. *)
Fixpoint well_formed (g : Geometry) : bool :=
  mem (gType g) recognized_tags
  && payload_matches g
  && forallb well_formed (gGeometries g).

(** The receiver of a decode whose payload failed: the tag [s] is set and the
    payload field it selects is nil. *)
Definition reset_payload (g : Geometry) : Geometry :=
  if String.eqb (gType g) GeometryPoint then set_Point g []
  else if String.eqb (gType g) GeometryMultiPoint then set_MultiPoint g []
  else if String.eqb (gType g) GeometryLineString then set_LineString g []
  else if String.eqb (gType g) GeometryMultiLineString
  then set_MultiLineString g []
  else if String.eqb (gType g) GeometryPolygon then set_Polygon g []
  else if String.eqb (gType g) GeometryMultiPolygon then set_MultiPolygon g []
  else if String.eqb (gType g) GeometryCollection then set_Geometries g []
  else g.

(** The extractor's error for a value that is not a sequence. *)
Definition not_a_sequence (t : GeometryType) (data : Value) : option error :=
  if String.eqb t GeometryPoint then Some (NotValidPosition data)
  else if String.eqb t GeometryMultiPoint
  then Some (NotValidPositionSet data)
  else if String.eqb t GeometryLineString
  then Some (NotValidPositionSet data)
  else if String.eqb t GeometryMultiLineString then Some (NotValidPath data)
  else if String.eqb t GeometryPolygon then Some (NotValidPath data)
  else if String.eqb t GeometryMultiPolygon then Some (NotValidPolygon data)
  else None.

(** Running an extractor over the elements of a sequence: the decoded
    elements, or the error of the first element that fails. *)
Fixpoint collect {A : Type} (dec : Value -> A * option error)
  (l : list Value) : list A * option error :=
  match l with
  | [] => ([], None)
  | x :: rest =>
      match dec x with
      | (a, None) =>
          match collect dec rest with
          | (r, None) => (a :: r, None)
          | (_, Some err) => ([], Some err)
          end
      | (_, Some err) => ([], Some err)
      end
  end.

(** A loop result [(result, err)] seen from a slice [acc] built before. *)
Definition after {A : Type} (acc : list A) (r : list A * option error)
  : list A * option error :=
  match r with
  | (l, None) => (acc ++ l, None)
  | (_, Some err) => ([], Some err)
  end.

(** An extractor accepts a value. *)
Definition accepts {A : Type} (dec : Value -> A * option error) (x : Value)
  : Prop :=
  snd (dec x) = None.

Definition is_array (v : Value) : bool :=
  match v with
  | VArray _ => true
  | _ => false
  end.

Definition is_document (v : Value) : bool :=
  match v with
  | VMap _ => true
  | _ => false
  end.

(** An element of a [geometries] sequence is a document that decodes. *)
Definition child_decodes (v : Value) : Prop :=
  exists vmap, v = VMap vmap /\ snd (decodeGeometry zeroGeometry vmap) = None.

(** The geometry decoded from an element of a [geometries] sequence. *)
Definition child (v : Value) : Geometry :=
  match v with
  | VMap vmap => fst (decodeGeometry zeroGeometry vmap)
  | _ => zeroGeometry
  end.

(** ** What encoding keeps of a geometry *)

(** [g] as [toPureGeometry] sees it: the tag, and the payload field the tag
    selects; for a collection, the children seen the same way.  Every other
    payload field is dropped. *)
Fixpoint selected (g : Geometry) : Geometry :=
  let t := gType g in
  mkGeometry t
    (if String.eqb t GeometryPoint then gPoint g else [])
    (if String.eqb t GeometryLineString then gLineString g else [])
    (if String.eqb t GeometryPolygon then gPolygon g else [])
    (if String.eqb t GeometryMultiPoint then gMultiPoint g else [])
    (if String.eqb t GeometryMultiLineString then gMultiLineString g else [])
    (if String.eqb t GeometryMultiPolygon then gMultiPolygon g else [])
    (if String.eqb t GeometryCollection
     then map selected (gGeometries g) else []).

(** The payload of [g] is written when its tag is one of the seven, and so
    is the payload of every child that is written with it. *)
Fixpoint writable (rule : omitempty_rule) (g : Geometry) : bool :=
  (negb (mem (gType g) recognized_tags) || payload_written rule g)
  && (negb (String.eqb (gType g) GeometryCollection)
      || forallb (writable rule) (gGeometries g)).

(** The value an error message prints, if it prints one. *)
Definition culprit (e : error) : option Value :=
  match e with
  | TypeNotDefined | TypeNotString => None
  | NotValidPosition v | NotValidCoordinate v | NotValidPositionSet v
  | NotValidPath v | NotValidPolygon v | NotValidGeometries v => Some v
  end.

(** [within x v]: [x] is [v] or an element, at any depth, of the sequence
    [v]. *)
Inductive within (x : Value) : Value -> Prop :=
| within_here : within x x
| within_element (a : list Value) (y : Value) :
    In y a -> within x y -> within x (VArray a).

(** Every document inside the value binds each of its keys once. *)
Fixpoint well_keyed (v : Value) : Prop :=
  match v with
  | VArray a =>
      (fix all (l : list Value) : Prop :=
         match l with
         | [] => True
         | x :: rest => well_keyed x /\ all rest
         end) a
  | VMap m =>
      NoDup (keys m)
      /\ (fix all (l : Doc) : Prop :=
            match l with
            | [] => True
            | kv :: rest => well_keyed (snd kv) /\ all rest
            end) m
  | _ => True
  end.

(** The seven variant predicates, in the order of the tags. *)
Definition variant_predicates (g : Geometry) : list bool :=
  [IsPoint g; IsMultiPoint g; IsLineString g; IsMultiLineString g;
   IsPolygon g; IsMultiPolygon g; IsCollection g].

(** Evaluate the codec on a concrete tag, leaving the extractors and the
    renderings of the payload folded. *)
Ltac run_codec :=
  cbn -[decodePosition decodePositionSet decodePathSet decodePolygonSet
        decodeGeometries decodeGeometry value_of_Point value_of_Points
        value_of_Paths value_of_Polygons value_of_slice MarshalBSON].

Ltac run_codec_in H :=
  cbn -[decodePosition decodePositionSet decodePathSet decodePolygonSet
        decodeGeometries decodeGeometry value_of_Point value_of_Points
        value_of_Paths value_of_Polygons value_of_slice MarshalBSON] in H.

(** * Properties *)

(** ** Unfolding equations *)

(** The unfolding of [decodeGeometries] in the shape of the source. *)
Lemma decodeGeometries_unfold (data : Value) :
  decodeGeometries data =
  match data with
  | VArray vs =>
      match decodeGeometries_loop vs [] with
      | Returned err => ([], Some err)
      | Left geometries =>
          if Nat.eqb (length geometries) (length vs)
          then (geometries, None)
          else ([], Some (NotValidGeometries data))
      end
  | _ => ([], Some (NotValidGeometries data))
  end.
Proof.
  destruct data; try reflexivity.
  cbn [decodeGeometries].
  match goal with
  | |- match ?f a [] with _ => _ end = _ =>
      assert (Hloop : forall todo acc, f todo acc = decodeGeometries_loop todo acc)
  end.
  { induction todo as [|v rest IH]; intros acc; [reflexivity|].
    cbn [decodeGeometries_loop].
    destruct v; try reflexivity.
    unfold decodeGeometry.
    match goal with
    | |- context [decodeGeometryWith (?h m)] =>
        assert (Hat : h m = decodeGeometries (index m "geometries"))
    end.
    { unfold index. induction m as [|[k x] m' IHm]; [reflexivity|].
      cbn [lookup]. destruct (String.eqb k "geometries"); [reflexivity|].
      exact IHm. }
    rewrite Hat.
    destruct (decodeGeometryWith _ zeroGeometry m) as [g [err|]];
      [reflexivity|]. apply IH. }
  rewrite Hloop. reflexivity.
Qed.


Lemma decodeGeometry_unfold (g : Geometry) (object : Doc) :
  decodeGeometry g object =
  match lookup "type" object with
  | None => (g, Some TypeNotDefined)
  | Some (VString s) =>
      decodePayload (decodeGeometries (index object "geometries"))
        (set_Type g s) object
  | Some _ => (g, Some TypeNotString)
  end.
Proof.
  unfold decodeGeometry, decodeGeometryWith.
  destruct (lookup "type" object) as [[]|]; reflexivity.
Qed.

Lemma toPureGeometry_Geometries (g : GoGeometry) (gs : slice GoGeometry) :
  geoGeometries (toPureGeometry g) = Some gs -> gs = vGeometries g.
Proof.
  unfold toPureGeometry.
  repeat match goal with
         | |- context [if ?b then _ else _] => destruct b
         end; cbn; congruence.
Qed.

(** [MarshalBSON] is [bson.Marshal] of the pure geometry, the children
    written by [MarshalBSON] in turn. *)
Lemma MarshalBSON_unfold (rule : omitempty_rule) (g : GoGeometry) :
  MarshalBSON rule g = marshal rule (MarshalBSON rule) (toPureGeometry g).
Proof.
  destruct g as [t p ls pg mp mls mpg gs].
  cbn [MarshalBSON vGeometries]. unfold marshal.
  destruct (geoGeometries (toPureGeometry (mkGo t p ls pg mp mls mpg gs)))
    as [gs'|] eqn:E.
  - apply toPureGeometry_Geometries in E. cbn in E. subst gs'.
    destruct gs; reflexivity.
  - unfold marshal_fields. rewrite E. reflexivity.
Qed.

(** ** The loops of the extractors *)

Section Collect.
Context {A : Type} (dec : Value -> A * option error).

Lemma collect_ok (l : list Value) :
  Forall (accepts dec) l -> collect dec l = (map (fun x => fst (dec x)) l, None).
Proof.
  induction 1 as [|x l Hx _ IH]; [reflexivity|].
  cbn [collect map]. unfold accepts in Hx.
  destruct (dec x) as [a [e|]]; [discriminate|].
  rewrite IH. reflexivity.
Qed.

Lemma collect_err (pre post : list Value) (p : Value) (e : error) :
  Forall (accepts dec) pre -> snd (dec p) = Some e ->
  collect dec (pre ++ p :: post) = ([], Some e).
Proof.
  intros Hpre Hp. induction Hpre as [|x l Hx _ IH]; cbn [collect app].
  - destruct (dec p) as [a [e'|]]; cbn in Hp; [|discriminate].
    congruence.
  - unfold accepts in Hx. destruct (dec x) as [a [e'|]]; [discriminate|].
    rewrite IH. reflexivity.
Qed.

Lemma collect_cases (l : list Value) :
  Forall (accepts dec) l \/
  exists pre p post e,
    l = pre ++ p :: post /\ Forall (accepts dec) pre /\ snd (dec p) = Some e.
Proof.
  induction l as [|x l IH]; [left; constructor|].
  destruct (dec x) as [a [e|]] eqn:Ex.
  - right. exists [], x, l, e. rewrite Ex. repeat split; constructor.
  - destruct IH as [IH|(pre & p & post & e & -> & Hpre & Hp)].
    + left. constructor; [unfold accepts in *; rewrite Ex; reflexivity|exact IH].
    + right. exists (x :: pre), p, post, e. repeat split; [|exact Hp].
      constructor; [unfold accepts in *; rewrite Ex; reflexivity|exact Hpre].
Qed.

Lemma collect_nil_on_error (l : list Value) :
  snd (collect dec l) <> None -> fst (collect dec l) = [].
Proof.
  destruct (collect_cases l) as [H|(pre & p & post & e & -> & Hpre & Hp)].
  - rewrite (collect_ok l H). cbn. congruence.
  - rewrite (collect_err pre post p e Hpre Hp). reflexivity.
Qed.

Lemma collect_success (l : list Value) :
  snd (collect dec l) = None <-> Forall (accepts dec) l.
Proof.
  split.
  - destruct (collect_cases l) as [H|(pre & p & post & e & -> & Hpre & Hp)];
      [trivial|].
    rewrite (collect_err pre post p e Hpre Hp). discriminate.
  - intros H. rewrite (collect_ok l H). reflexivity.
Qed.

Lemma collect_failure (d : nat) (l : list Value) :
  (forall x, failure (dec x) = mismatch d x) ->
  failure (collect dec l) = first_some (map (mismatch d) l).
Proof.
  intros Hdec. induction l as [|x l IH]; [reflexivity|].
  cbn [collect map first_some]. rewrite <- (Hdec x). unfold failure in *.
  destruct (dec x) as [a [e|]]; cbn [snd option_map]; [reflexivity|].
  rewrite <- IH. destruct (collect dec l) as [r [e|]]; reflexivity.
Qed.
End Collect.

Lemma decodePosition_loop_spec (coords : list Value) (result : Point) :
  decodePosition_loop coords result =
  match first_non_number coords with
  | Some x => ([], Some (NotValidCoordinate x))
  | None => (result ++ numbers coords, None)
  end.
Proof.
  revert result. induction coords as [|c rest IH]; intros result.
  - cbn. rewrite app_nil_r. reflexivity.
  - destruct c; cbn [decodePosition_loop first_non_number is_number numbers
                       number]; try reflexivity;
      rewrite IH; destruct (first_non_number rest); try reflexivity;
      rewrite <- app_assoc; reflexivity.
Qed.

Lemma decodePositionSet_loop_collect (points : list Value)
  (result : list Point) :
  decodePositionSet_loop points result =
  after result (collect decodePosition points).
Proof.
  revert result. induction points as [|x rest IH]; intros result.
  - cbn. rewrite app_nil_r. reflexivity.
  - cbn [decodePositionSet_loop collect].
    destruct (decodePosition x) as [p [e|]]; [reflexivity|].
    rewrite IH. destruct (collect decodePosition rest) as [r [e|]];
      cbn [after]; [reflexivity|].
    rewrite <- app_assoc. reflexivity.
Qed.

Lemma decodePathSet_loop_collect (sets : list Value)
  (result : list (list Point)) :
  decodePathSet_loop sets result =
  after result (collect decodePositionSet sets).
Proof.
  revert result. induction sets as [|x rest IH]; intros result.
  - cbn. rewrite app_nil_r. reflexivity.
  - cbn [decodePathSet_loop collect].
    destruct (decodePositionSet x) as [p [e|]]; [reflexivity|].
    rewrite IH. destruct (collect decodePositionSet rest) as [r [e|]];
      cbn [after]; [reflexivity|].
    rewrite <- app_assoc. reflexivity.
Qed.

Lemma decodePolygonSet_loop_collect (polygons : list Value)
  (result : list (list (list Point))) :
  decodePolygonSet_loop polygons result =
  after result (collect decodePathSet polygons).
Proof.
  revert result. induction polygons as [|x rest IH]; intros result.
  - cbn. rewrite app_nil_r. reflexivity.
  - cbn [decodePolygonSet_loop collect].
    destruct (decodePathSet x) as [p [e|]]; [reflexivity|].
    rewrite IH. destruct (collect decodePathSet rest) as [r [e|]];
      cbn [after]; [reflexivity|].
    rewrite <- app_assoc. reflexivity.
Qed.

Lemma after_nil {A : Type} (r : list A * option error) :
  (snd r <> None -> fst r = []) -> after [] r = r.
Proof.
  destruct r as [l [e|]]; cbn; intros H; [|reflexivity].
  rewrite H; [reflexivity|discriminate].
Qed.

Lemma decodePositionSet_array (points : list Value) :
  decodePositionSet (VArray points) = collect decodePosition points.
Proof.
  cbn. rewrite decodePositionSet_loop_collect.
  apply after_nil, collect_nil_on_error.
Qed.

Lemma decodePathSet_array (sets : list Value) :
  decodePathSet (VArray sets) = collect decodePositionSet sets.
Proof.
  cbn. rewrite decodePathSet_loop_collect.
  apply after_nil, collect_nil_on_error.
Qed.

Lemma decodePolygonSet_array (polygons : list Value) :
  decodePolygonSet (VArray polygons) = collect decodePathSet polygons.
Proof.
  cbn. rewrite decodePolygonSet_loop_collect.
  apply after_nil, collect_nil_on_error.
Qed.

(** ** Positions *)

Lemma decodePosition_array (coords : list Value) :
  decodePosition (VArray coords) =
  match first_non_number coords with
  | Some x => ([], Some (NotValidCoordinate x))
  | None => (numbers coords, None)
  end.
Proof. cbn [decodePosition]. apply decodePosition_loop_spec. Qed.



Lemma decodePosition_kind (data : Value) (e : error) :
  snd (decodePosition data) = Some e -> kind e = InvalidPosition.
Proof.
  destruct data; cbn [decodePosition snd]; try (intros [= <-]; reflexivity).
  rewrite decodePosition_loop_spec.
  destruct (first_non_number a); cbn; [intros [= <-]; reflexivity|discriminate].
Qed.

Lemma decodePosition_nil_on_error (data : Value) :
  snd (decodePosition data) <> None -> fst (decodePosition data) = [].
Proof.
  destruct data; try reflexivity.
  rewrite decodePosition_array. destruct (first_non_number a); cbn; congruence.
Qed.



(** ** Sequences of positions *)

(** C8 as stated fails: an element that is no position makes
    [decodePositionSet] fail with the element's own error, whose kind is
    [InvalidPosition]. *)
Lemma decodePositionSet_kind_counterexample :
  ~ (forall points,
        Exists (fun p => snd (decodePosition p) <> None) points ->
        failure (decodePositionSet (VArray points)) =
        Some InvalidPositionSequence).
Proof.
  intros H. specialize (H [VString "x"]).
  assert (E : Exists (fun p => snd (decodePosition p) <> None) [VString "x"])
    by (constructor; discriminate).
  specialize (H E). vm_compute in H. discriminate.
Qed.

(** C8, amended.  On a sequence, [decodePositionSet] returns the error of
    the first element that fails [decodePosition], unchanged (its kind is
    [InvalidPosition]), and no positions; it succeeds exactly when the input
    is a sequence whose every element parses, with the positions in order;
    it fails with [InvalidPositionSequence] exactly when the input is not a
    sequence. *)
Theorem decodePositionSet_first_failure :
  (forall pre p post e,
      Forall (accepts decodePosition) pre ->
      snd (decodePosition p) = Some e ->
      decodePositionSet (VArray (pre ++ p :: post)) = ([], Some e) /\
      kind e = InvalidPosition)
  /\ (forall data,
         snd (decodePositionSet data) = None <->
         exists points,
           data = VArray points /\ Forall (accepts decodePosition) points)
  /\ (forall points,
         Forall (accepts decodePosition) points ->
         decodePositionSet (VArray points) =
         (map (fun x => fst (decodePosition x)) points, None))
  /\ (forall data,
         failure (decodePositionSet data) = Some InvalidPositionSequence <->
         is_array data = false).
Proof.
  split; [|split; [|split]].
  - intros pre p post e Hpre Hp. split.
    + rewrite decodePositionSet_array. apply collect_err; assumption.
    + apply (decodePosition_kind p e Hp).
  - intros data. split.
    + destruct data; try discriminate.
      rewrite decodePositionSet_array, collect_success. eauto.
    + intros (points & -> & H).
      rewrite decodePositionSet_array. apply collect_success, H.
  - intros points H. rewrite decodePositionSet_array.
    apply collect_ok, H.
  - intros data. destruct data; cbn [is_array];
      try (split; [reflexivity|]; intros _; reflexivity).
    split; [|discriminate]. unfold failure.
    rewrite decodePositionSet_array.
    destruct (collect_cases decodePosition a)
      as [H|(pre & p & post & e & -> & Hpre & Hp)].
    + rewrite (collect_ok _ _ H). discriminate.
    + rewrite (collect_err _ pre post p e Hpre Hp). cbn.
      rewrite (decodePosition_kind p e Hp). discriminate.
Qed.

Lemma decodePositionSet_first_failure_witness :
  decodePositionSet
    (VArray ([VArray [VInt 1; VInt 2]] ++ VArray [VBool true] :: [VNil])) =
  ([], Some (NotValidCoordinate (VBool true)))
  /\ kind (NotValidCoordinate (VBool true)) = InvalidPosition.
Proof.
  apply (proj1 decodePositionSet_first_failure
           [VArray [VInt 1; VInt 2]] (VArray [VBool true]) [VNil]
           (NotValidCoordinate (VBool true))).
  - repeat constructor.
  - reflexivity.
Defined.

(** ** Nesting depth *)

Lemma failure_decodePosition (v : Value) :
  failure (decodePosition v) = mismatch 1 v.
Proof.
  destruct v; try reflexivity.
  unfold failure. rewrite decodePosition_array. cbn [mismatch].
  induction a as [|x a IH]; [reflexivity|].
  cbn [first_non_number map first_some mismatch].
  destruct (is_number x); [|reflexivity].
  destruct (first_non_number a); cbn in *; exact IH.
Qed.

Lemma failure_decodePositionSet (v : Value) :
  failure (decodePositionSet v) = mismatch 2 v.
Proof.
  destruct v; try reflexivity.
  rewrite decodePositionSet_array.
  apply collect_failure, failure_decodePosition.
Qed.

Lemma failure_decodePathSet (v : Value) :
  failure (decodePathSet v) = mismatch 3 v.
Proof.
  destruct v; try reflexivity.
  rewrite decodePathSet_array.
  apply collect_failure, failure_decodePositionSet.
Qed.

Lemma failure_decodePolygonSet (v : Value) :
  failure (decodePolygonSet v) = mismatch 4 v.
Proof.
  destruct v; try reflexivity.
  rewrite decodePolygonSet_array.
  apply collect_failure, failure_decodePathSet.
Qed.

Lemma first_some_none {A : Type} (l : list (option A)) :
  first_some l = None <-> Forall (fun o => o = None) l.
Proof.
  induction l as [|[a|] l IH]; cbn.
  - split; [constructor|reflexivity].
  - split; [discriminate|]. intros H. inversion H. discriminate.
  - rewrite IH. split; [constructor; auto|]. intros H. inversion H. assumption.
Qed.

Lemma mismatch_shaped (d : nat) (v : Value) :
  mismatch d v = None <-> shaped d v = true.
Proof.
  revert v. induction d as [|d IH]; intros v; cbn [mismatch shaped].
  - destruct (is_number v); split; congruence.
  - destruct v; try (split; discriminate).
    rewrite first_some_none, Forall_map, forallb_forall, Forall_forall.
    split; intros H x Hx; apply IH, H, Hx.
Qed.

Lemma shaped_depth (d : nat) (v : Value) :
  shaped d v = true -> no_empty_sequence v = true -> nesting_depth v = d.
Proof.
  revert v. induction d as [|d IH]; intros v Hs Hne.
  - destruct v; try discriminate; reflexivity.
  - destruct v; try discriminate. cbn in Hs, Hne |- *.
    apply andb_prop in Hne as [Hlen Hne]. f_equal.
    rewrite forallb_forall in Hs, Hne.
    destruct a as [|x a]; [discriminate|]. clear Hlen.
    assert (Hall : forall y, In y (x :: a) -> nesting_depth y = d)
      by (intros y Hy; apply IH; auto).
    clear Hs Hne. cbn [map fold_right].
    rewrite (Hall x (or_introl eq_refl)).
    assert (Hrest : forall y, In y a -> nesting_depth y = d)
      by (intros y Hy; apply Hall; right; exact Hy).
    clear Hall. induction a as [|y a IHa]; cbn [map fold_right].
    + apply Nat.max_0_r.
    + rewrite (Hrest y (or_introl eq_refl)).
      rewrite Nat.max_assoc, Nat.max_id.
      apply IHa. intros z Hz. apply Hrest. right. exact Hz.
Qed.

Lemma failure_decodePayload (geoms : list Geometry * option error)
  (g : Geometry) (object : Doc) (d : nat) :
  required_depth (gType g) = Some d ->
  failure (decodePayload geoms g object) =
  mismatch d (index object "coordinates").
Proof.
  unfold required_depth, decodePayload, failure.
  destruct (String.eqb (gType g) GeometryPoint).
  { intros [= <-]. rewrite <- failure_decodePosition. unfold failure.
    destruct (decodePosition _); reflexivity. }
  destruct (String.eqb (gType g) GeometryMultiPoint).
  { intros [= <-]. rewrite <- failure_decodePositionSet. unfold failure.
    destruct (decodePositionSet _); reflexivity. }
  destruct (String.eqb (gType g) GeometryLineString).
  { intros [= <-]. rewrite <- failure_decodePositionSet. unfold failure.
    destruct (decodePositionSet _); reflexivity. }
  destruct (String.eqb (gType g) GeometryMultiLineString).
  { intros [= <-]. rewrite <- failure_decodePathSet. unfold failure.
    destruct (decodePathSet _); reflexivity. }
  destruct (String.eqb (gType g) GeometryPolygon).
  { intros [= <-]. rewrite <- failure_decodePathSet. unfold failure.
    destruct (decodePathSet _); reflexivity. }
  destruct (String.eqb (gType g) GeometryMultiPolygon).
  { intros [= <-]. rewrite <- failure_decodePolygonSet. unfold failure.
    destruct (decodePolygonSet _); reflexivity. }
  discriminate.
Qed.

(** C3 as stated fails: [[]] has nesting depth 1, a [MultiPoint] requires 2,
    and the document decodes, to a [MultiPoint] of no positions. *)
Lemma decodeGeometry_depth_counterexample :
  ~ (forall object t d,
        lookup "type" object = Some (VString t) ->
        required_depth t = Some d ->
        nesting_depth (index object "coordinates") <> d ->
        snd (decodeGeometry zeroGeometry object) <> None).
Proof.
  intros H.
  apply (H [("type", VString "MultiPoint"); ("coordinates", VArray [])]
           "MultiPoint" 2%nat); try reflexivity.
  cbn. discriminate.
Qed.

(** C3, amended.  For a document whose [type] is one of the six
    coordinate-bearing tags, decoding fails exactly when [coordinates] is not
    nested sequences of the required depth with numbers at the leaves, and
    then with the error kind of the level at which the walk first meets the
    mismatch; so it fails whenever the nesting depth differs from the
    required one and no sequence inside [coordinates] is empty (an empty
    sequence is accepted at every level).  Decoding
    [{"type":"Point","coordinates":[[1,2]]}] fails with [InvalidPosition],
    reporting the inner sequence. *)
Theorem decodeGeometry_shape_rejection :
  (forall g object t d,
      lookup "type" object = Some (VString t) ->
      required_depth t = Some d ->
      failure (decodeGeometry g object) =
      mismatch d (index object "coordinates")
      /\ (failure (decodeGeometry g object) = None <->
          shaped d (index object "coordinates") = true)
      /\ (no_empty_sequence (index object "coordinates") = true ->
          nesting_depth (index object "coordinates") <> d ->
          failure (decodeGeometry g object) <> None))
  /\ snd (decodeGeometry zeroGeometry
            [("type", VString "Point");
             ("coordinates", VArray [VArray [VInt 1; VInt 2]])]) =
     Some (NotValidCoordinate (VArray [VInt 1; VInt 2]))
  /\ kind (NotValidCoordinate (VArray [VInt 1; VInt 2])) = InvalidPosition.
Proof.
  split; [|split; reflexivity].
  intros g object t d Ht Hd.
  assert (Hf : failure (decodeGeometry g object) =
               mismatch d (index object "coordinates")).
  { rewrite decodeGeometry_unfold, Ht.
    apply failure_decodePayload. exact Hd. }
  split; [exact Hf|]. rewrite Hf. split; [apply mismatch_shaped|].
  intros Hne Hdepth Hm. apply Hdepth.
  apply shaped_depth; [apply mismatch_shaped, Hm|exact Hne].
Qed.

Lemma decodeGeometry_shape_rejection_witness :
  failure
    (decodeGeometry zeroGeometry
       [("type", VString "MultiPolygon");
        ("coordinates", VArray [VArray [VArray [VInt 1; VInt 2]]])]) =
  Some InvalidPosition
  /\ failure
       (decodeGeometry zeroGeometry
          [("type", VString "MultiPolygon");
           ("coordinates", VArray [VArray [VArray [VInt 1; VInt 2]]])])
     <> None.
Proof.
  destruct (proj1 decodeGeometry_shape_rejection zeroGeometry
              [("type", VString "MultiPolygon");
               ("coordinates", VArray [VArray [VArray [VInt 1; VInt 2]]])]
              "MultiPolygon" 4%nat eq_refl eq_refl) as (Hf & _ & Hdepth).
  split; [exact Hf|].
  apply Hdepth; [reflexivity|]. cbn. discriminate.
Defined.

(** ** Missing coordinates *)

(** C10.  A document whose [type] is one of the six coordinate-bearing tags
    and which has no [coordinates] key fails to decode: the extractor of the
    tag receives the nil value and answers with its not-a-sequence error
    ([InvalidPosition] for a [Point]). *)
Theorem decodeGeometry_missing_coordinates :
  forall g object t,
    lookup "type" object = Some (VString t) ->
    mem t coordinate_tags = true ->
    lookup "coordinates" object = None ->
    snd (decodeGeometry g object) = not_a_sequence t VNil
    /\ snd (decodeGeometry g object) <> None
    /\ (t = GeometryPoint ->
        failure (decodeGeometry g object) = Some InvalidPosition).
Proof.
  intros g object t Ht Hmem Hc.
  rewrite decodeGeometry_unfold, Ht.
  unfold decodePayload, not_a_sequence, index, failure. rewrite Hc.
  cbn [gType set_Type].
  unfold mem, coordinate_tags in Hmem. cbn [existsb] in Hmem.
  destruct (String.eqb t GeometryPoint) eqn:E1;
    [cbn; repeat split; discriminate|].
  destruct (String.eqb t GeometryMultiPoint) eqn:E2;
    [cbn; repeat split; try discriminate;
     intros ->; discriminate|].
  destruct (String.eqb t GeometryLineString) eqn:E3;
    [cbn; repeat split; try discriminate;
     intros ->; discriminate|].
  destruct (String.eqb t GeometryMultiLineString) eqn:E4;
    [cbn; repeat split; try discriminate;
     intros ->; discriminate|].
  destruct (String.eqb t GeometryPolygon) eqn:E5;
    [cbn; repeat split; try discriminate;
     intros ->; discriminate|].
  destruct (String.eqb t GeometryMultiPolygon) eqn:E6;
    [cbn; repeat split; try discriminate;
     intros ->; discriminate|].
  discriminate.
Qed.

Lemma decodeGeometry_missing_coordinates_witness :
  snd (decodeGeometry zeroGeometry [("type", VString "Polygon")]) =
  Some (NotValidPath VNil)
  /\ snd (decodeGeometry zeroGeometry [("type", VString "Polygon")]) <> None.
Proof.
  destruct (decodeGeometry_missing_coordinates zeroGeometry
              [("type", VString "Polygon")] "Polygon"
              eq_refl eq_refl eq_refl) as (H1 & H2 & _).
  split; [exact H1|exact H2].
Defined.

(** ** Sequences of geometries *)

Lemma decodeGeometries_loop_ok (todo : list Value) (acc : list Geometry) :
  Forall child_decodes todo ->
  decodeGeometries_loop todo acc = Left (acc ++ map child todo).
Proof.
  intros H. revert acc.
  induction H as [|v todo (vmap & -> & Hv) _ IH]; intros acc.
  - cbn. rewrite app_nil_r. reflexivity.
  - cbn [decodeGeometries_loop map child].
    destruct (decodeGeometry zeroGeometry vmap) as [g [e|]];
      [discriminate|].
    rewrite IH, <- app_assoc. reflexivity.
Qed.

Lemma decodeGeometries_loop_break (pre post : list Value) (v : Value)
  (acc : list Geometry) :
  Forall child_decodes pre -> is_document v = false ->
  decodeGeometries_loop (pre ++ v :: post) acc = Left (acc ++ map child pre).
Proof.
  intros H Hv. revert acc.
  induction H as [|w pre (vmap & -> & Hw) _ IH]; intros acc.
  - cbn. rewrite app_nil_r. destruct v; try reflexivity. discriminate.
  - cbn [decodeGeometries_loop map child app].
    destruct (decodeGeometry zeroGeometry vmap) as [g [e|]];
      [discriminate|].
    rewrite IH, <- app_assoc. reflexivity.
Qed.

Lemma decodeGeometries_loop_return (pre post : list Value) (vmap : Doc)
  (e : error) (acc : list Geometry) :
  Forall child_decodes pre ->
  snd (decodeGeometry zeroGeometry vmap) = Some e ->
  decodeGeometries_loop (pre ++ VMap vmap :: post) acc = Returned e.
Proof.
  intros H Hv. revert acc.
  induction H as [|w pre (wmap & -> & Hw) _ IH]; intros acc.
  - cbn. destruct (decodeGeometry zeroGeometry vmap) as [g [e'|]];
      cbn in Hv; congruence.
  - cbn [decodeGeometries_loop app].
    destruct (decodeGeometry zeroGeometry wmap) as [g [e'|]];
      [discriminate|].
    apply IH.
Qed.

(** Every sequence is of one of three forms: all elements decode; the first
    element that does not is no document; or it is a document that fails. *)
Lemma children_cases (vs : list Value) :
  Forall child_decodes vs
  \/ (exists pre v post,
         vs = pre ++ v :: post /\ Forall child_decodes pre /\
         is_document v = false)
  \/ (exists pre vmap post e,
         vs = pre ++ VMap vmap :: post /\ Forall child_decodes pre /\
         snd (decodeGeometry zeroGeometry vmap) = Some e).
Proof.
  induction vs as [|v vs IH]; [left; constructor|].
  destruct (is_document v) eqn:Hdoc.
  - destruct v; try discriminate.
    destruct (snd (decodeGeometry zeroGeometry m)) as [e|] eqn:Hm.
    + right. right. exists [], m, vs, e. repeat split; [constructor|exact Hm].
    + assert (Hv : child_decodes (VMap m)) by (exists m; auto).
      destruct IH as [IH|[(pre & w & post & -> & Hpre & Hw)
                         |(pre & wmap & post & e & -> & Hpre & Hw)]].
      * left. constructor; assumption.
      * right. left. exists (VMap m :: pre), w, post.
        repeat split; [constructor; assumption|exact Hw].
      * right. right. exists (VMap m :: pre), wmap, post, e.
        repeat split; [constructor; assumption|exact Hw].
  - right. left. exists [], v, vs. repeat split; [constructor|exact Hdoc].
Qed.

Lemma decodeGeometries_ok (vs : list Value) :
  Forall child_decodes vs ->
  decodeGeometries (VArray vs) = (map child vs, None).
Proof.
  intros H. rewrite decodeGeometries_unfold, decodeGeometries_loop_ok by exact H.
  cbn [app]. rewrite length_map, Nat.eqb_refl. reflexivity.
Qed.

Lemma decodeGeometries_not_document (pre post : list Value) (v : Value) :
  Forall child_decodes pre -> is_document v = false ->
  decodeGeometries (VArray (pre ++ v :: post)) =
  ([], Some (NotValidGeometries (VArray (pre ++ v :: post)))).
Proof.
  intros H Hv.
  rewrite decodeGeometries_unfold, decodeGeometries_loop_break by assumption.
  cbn [app]. rewrite length_map, length_app. cbn [length].
  destruct (Nat.eqb_spec (length pre) (length pre + S (length post)));
    [lia|reflexivity].
Qed.

Lemma decodeGeometries_child_error (pre post : list Value) (vmap : Doc)
  (e : error) :
  Forall child_decodes pre ->
  snd (decodeGeometry zeroGeometry vmap) = Some e ->
  decodeGeometries (VArray (pre ++ VMap vmap :: post)) = ([], Some e).
Proof.
  intros H Hv.
  rewrite decodeGeometries_unfold,
    (decodeGeometries_loop_return pre post vmap e) by assumption.
  reflexivity.
Qed.

Lemma decodeGeometries_not_array (data : Value) :
  is_array data = false ->
  decodeGeometries data = ([], Some (NotValidGeometries data)).
Proof. destruct data; try reflexivity. discriminate. Qed.

Lemma decodeGeometries_nil_on_error (data : Value) :
  snd (decodeGeometries data) <> None -> fst (decodeGeometries data) = [].
Proof.
  destruct data; try reflexivity.
  destruct (children_cases a)
    as [H|[(pre & v & post & -> & Hpre & Hv)
          |(pre & vmap & post & e & -> & Hpre & Hv)]].
  - rewrite decodeGeometries_ok by exact H. cbn. congruence.
  - rewrite decodeGeometries_not_document by assumption. reflexivity.
  - rewrite (decodeGeometries_child_error pre post vmap e) by assumption.
    reflexivity.
Qed.

(** C6 as stated fails: when a child document fails to decode,
    [decodeGeometries] fails with the child's error, here [MissingType],
    and not with [InvalidGeometrySequence]. *)
Lemma decodeGeometries_kind_counterexample :
  ~ (forall data,
        snd (decodeGeometries data) <> None ->
        failure (decodeGeometries data) = Some InvalidGeometrySequence).
Proof.
  intros H. specialize (H (VArray [VMap []])).
  assert (E : snd (decodeGeometries (VArray [VMap []])) <> None)
    by (vm_compute; discriminate).
  specialize (H E). vm_compute in H. discriminate.
Qed.

(** C6, amended.  [decodeGeometries] is all-or-nothing.  It returns the
    decoded children, as many as the input sequence has elements and in the
    same order, exactly when the input is a sequence whose every element is a
    document that decodes.  It fails with [InvalidGeometrySequence] when the
    input is not a sequence, and when the first element that does not decode
    is not a document; when that element is a document whose decoding fails,
    it fails with the error of that child, unchanged.  In every failure no
    list of children is returned. *)
Theorem decodeGeometries_all_or_nothing :
  (forall vs,
      Forall child_decodes vs ->
      decodeGeometries (VArray vs) = (map child vs, None) /\
      length (map child vs) = length vs)
  /\ (forall data,
         snd (decodeGeometries data) = None <->
         exists vs, data = VArray vs /\ Forall child_decodes vs)
  /\ (forall data,
         is_array data = false ->
         decodeGeometries data = ([], Some (NotValidGeometries data)))
  /\ (forall pre v post,
         Forall child_decodes pre -> is_document v = false ->
         decodeGeometries (VArray (pre ++ v :: post)) =
         ([], Some (NotValidGeometries (VArray (pre ++ v :: post)))))
  /\ (forall pre vmap post e,
         Forall child_decodes pre ->
         snd (decodeGeometry zeroGeometry vmap) = Some e ->
         decodeGeometries (VArray (pre ++ VMap vmap :: post)) =
         ([], Some e))
  /\ (forall data,
         snd (decodeGeometries data) <> None ->
         fst (decodeGeometries data) = []).
Proof.
  split; [|split; [|split; [|split; [|split]]]].
  - intros vs H. split; [apply decodeGeometries_ok, H|apply length_map].
  - intros data. split.
    + destruct data; try discriminate.
      destruct (children_cases a)
        as [H|[(pre & v & post & -> & Hpre & Hv)
              |(pre & vmap & post & e & -> & Hpre & Hv)]].
      * eauto.
      * rewrite decodeGeometries_not_document by assumption. discriminate.
      * rewrite (decodeGeometries_child_error pre post vmap e) by assumption.
        discriminate.
    + intros (vs & -> & H). rewrite decodeGeometries_ok by exact H.
      reflexivity.
  - exact decodeGeometries_not_array.
  - intros pre v post. apply decodeGeometries_not_document.
  - intros pre vmap post e. apply decodeGeometries_child_error.
  - exact decodeGeometries_nil_on_error.
Qed.

Lemma decodeGeometries_all_or_nothing_witness :
  decodeGeometries
    (VArray ([VMap [("type", VString "Point");
                    ("coordinates", VArray [VInt 1; VInt 2])]]
             ++ VMap [("type", VString "Point")] :: [VInt 3])) =
  ([], Some (NotValidPosition VNil)).
Proof.
  apply (proj1 (proj2 (proj2 (proj2 (proj2 decodeGeometries_all_or_nothing))))
           [VMap [("type", VString "Point");
                  ("coordinates", VArray [VInt 1; VInt 2])]]
           [("type", VString "Point")] [VInt 3] (NotValidPosition VNil)).
  - constructor; [|constructor].
    exists [("type", VString "Point");
            ("coordinates", VArray [VInt 1; VInt 2])].
    split; reflexivity.
  - reflexivity.
Defined.

(** ** The type tag *)

Lemma mismatch_kind (d : nat) (v : Value) (k : ErrorKind) :
  mismatch d v = Some k -> k <> MissingType /\ k <> InvalidType.
Proof.
  revert v. induction d as [|d IH]; intros v; cbn [mismatch].
  - destruct (is_number v); [discriminate|].
    intros [= <-]. split; discriminate.
  - destruct v;
      try (intros [= <-]; destruct d as [|[|[|?]]]; split; discriminate).
    induction a as [|x a IHa]; cbn [map first_some]; [discriminate|].
    destruct (mismatch d x) eqn:Hx; [|exact IHa].
    intros [= <-]. apply (IH x). exact Hx.
Qed.

Lemma required_depth_recognized (t : GeometryType) :
  required_depth t = None -> t <> GeometryCollection ->
  mem t recognized_tags = false.
Proof.
  unfold required_depth, mem, recognized_tags, coordinate_tags.
  cbn [app existsb].
  destruct (String.eqb t GeometryPoint); [discriminate|].
  destruct (String.eqb t GeometryMultiPoint); [discriminate|].
  destruct (String.eqb t GeometryLineString); [discriminate|].
  destruct (String.eqb t GeometryMultiLineString); [discriminate|].
  destruct (String.eqb t GeometryPolygon); [discriminate|].
  destruct (String.eqb t GeometryMultiPolygon); [discriminate|].
  intros _ H.
  destruct (String.eqb_spec t GeometryCollection); [contradiction|].
  reflexivity.
Qed.

Lemma decodePayload_unrecognized (geoms : list Geometry * option error)
  (g : Geometry) (object : Doc) :
  mem (gType g) recognized_tags = false ->
  decodePayload geoms g object = (g, None).
Proof.
  unfold mem, recognized_tags, coordinate_tags, decodePayload.
  cbn [app existsb].
  destruct (String.eqb (gType g) GeometryPoint); [discriminate|].
  destruct (String.eqb (gType g) GeometryMultiPoint); [discriminate|].
  destruct (String.eqb (gType g) GeometryLineString); [discriminate|].
  destruct (String.eqb (gType g) GeometryMultiLineString); [discriminate|].
  destruct (String.eqb (gType g) GeometryPolygon); [discriminate|].
  destruct (String.eqb (gType g) GeometryMultiPolygon); [discriminate|].
  destruct (String.eqb (gType g) GeometryCollection); [discriminate|].
  reflexivity.
Qed.

Lemma decodePayload_collection (geoms : list Geometry * option error)
  (g : Geometry) (object : Doc) :
  gType g = GeometryCollection ->
  decodePayload geoms g object = (set_Geometries g (fst geoms), snd geoms).
Proof.
  intros H. unfold decodePayload. rewrite H. cbn. destruct geoms. reflexivity.
Qed.

(** C2 as stated fails: a collection whose child has no [type] key fails
    with [MissingType], although the document itself has a [type] key. *)
Lemma decodeGeometry_missing_type_counterexample :
  ~ (forall object,
        (failure (decodeGeometry zeroGeometry object) = Some MissingType <->
         lookup "type" object = None)
        /\ (failure (decodeGeometry zeroGeometry object) = Some InvalidType <->
            exists t, lookup "type" object = Some t /\
                      forall s, t <> VString s)).
Proof.
  intros H.
  destruct (H [("type", VString "GeometryCollection");
               ("geometries", VArray [VMap []])]) as [[H1 _] _].
  specialize (H1 eq_refl). discriminate.
Qed.

(** C2, amended.  Decoding fails with [MissingType] whenever the document
    has no [type] key, and with [InvalidType] whenever [type] is present and
    is not a string; in both cases the receiver is untouched and the payload
    is not examined.  Only when [type] is a string is the payload examined.
    When that string is not [GeometryCollection], decoding never fails with
    [MissingType] or [InvalidType]; a [GeometryCollection] fails with one of
    them exactly when the first child of [geometries] that does not decode
    is a document failing with that error. *)
Theorem decodeGeometry_type_errors :
  (forall g object,
      lookup "type" object = None ->
      decodeGeometry g object = (g, Some TypeNotDefined))
  /\ (forall g object t,
         lookup "type" object = Some t -> (forall s, t <> VString s) ->
         decodeGeometry g object = (g, Some TypeNotString))
  /\ (forall g object s,
         lookup "type" object = Some (VString s) ->
         decodeGeometry g object =
         decodePayload (decodeGeometries (index object "geometries"))
           (set_Type g s) object)
  /\ (forall g object s e,
         lookup "type" object = Some (VString s) ->
         s <> GeometryCollection ->
         snd (decodeGeometry g object) = Some e ->
         kind e <> MissingType /\ kind e <> InvalidType)
  /\ (forall g object e,
         lookup "type" object = Some (VString GeometryCollection) ->
         kind e = MissingType \/ kind e = InvalidType ->
         (snd (decodeGeometry g object) = Some e <->
          exists pre vmap post,
            index object "geometries" = VArray (pre ++ VMap vmap :: post) /\
            Forall child_decodes pre /\
            snd (decodeGeometry zeroGeometry vmap) = Some e)).
Proof.
  split; [|split; [|split; [|split]]].
  - intros g object H. rewrite decodeGeometry_unfold, H. reflexivity.
  - intros g object t H Ht. rewrite decodeGeometry_unfold, H.
    destruct t; try reflexivity. destruct (Ht s). reflexivity.
  - intros g object s H. rewrite decodeGeometry_unfold, H. reflexivity.
  - intros g object s e H Hs He.
    rewrite decodeGeometry_unfold, H in He.
    destruct (required_depth s) as [d|] eqn:Hd.
    + apply (mismatch_kind d (index object "coordinates")).
      rewrite <- (failure_decodePayload
                    (decodeGeometries (index object "geometries"))
                    (set_Type g s) object d Hd).
      unfold failure. rewrite He. reflexivity.
    + rewrite decodePayload_unrecognized in He; [discriminate|].
      apply required_depth_recognized; assumption.
  - intros g object e H Hk.
    rewrite decodeGeometry_unfold, H, decodePayload_collection by reflexivity.
    cbn [snd]. split.
    + destruct (index object "geometries") as [| | | | | | |vs| |] eqn:Hv;
        try (cbn; intros [= <-]; destruct Hk; discriminate).
      destruct (children_cases vs)
        as [Hok|[(pre & v & post & -> & Hpre & Hdoc)
                |(pre & vmap & post & e' & -> & Hpre & Hfail)]].
      * rewrite decodeGeometries_ok by exact Hok. discriminate.
      * rewrite decodeGeometries_not_document by assumption.
        cbn. intros [= <-]. destruct Hk; discriminate.
      * rewrite (decodeGeometries_child_error pre post vmap e')
          by assumption.
        cbn. intros [= <-]. exists pre, vmap, post. auto.
    + intros (pre & vmap & post & -> & Hpre & Hfail).
      rewrite (decodeGeometries_child_error pre post vmap e) by assumption.
      reflexivity.
Qed.

Lemma decodeGeometry_type_errors_witness :
  decodeGeometry (NewPoint [float64_of_int 1])
    [("coordinates", VArray [VInt 1; VInt 2])] =
  (NewPoint [float64_of_int 1], Some TypeNotDefined)
  /\ decodeGeometry (NewPoint [float64_of_int 1])
       [("type", VInt 7); ("coordinates", VArray [VInt 1; VInt 2])] =
     (NewPoint [float64_of_int 1], Some TypeNotString).
Proof.
  destruct decodeGeometry_type_errors as (Hmissing & Hinvalid & _).
  split.
  - apply Hmissing. reflexivity.
  - apply (Hinvalid _ _ (VInt 7)); [reflexivity|discriminate].
Defined.

(** ** Unrecognized tags *)

(** C5.  When [type] holds a string that is none of the seven tags, decoding
    succeeds, stores the string as the tag and touches no payload field,
    whatever [coordinates] and [geometries] hold; decoded into a fresh
    geometry, every payload field is empty. *)
Theorem decodeGeometry_unrecognized_type :
  forall g object s,
    lookup "type" object = Some (VString s) ->
    mem s recognized_tags = false ->
    decodeGeometry g object = (set_Type g s, None)
    /\ UnmarshalGeometry object =
       (Some (mkGeometry s [] [] [] [] [] [] []), None).
Proof.
  intros g object s H Hs.
  assert (E : forall g0, decodeGeometry g0 object = (set_Type g0 s, None)).
  { intros g0. rewrite decodeGeometry_unfold, H.
    apply decodePayload_unrecognized. exact Hs. }
  split; [apply E|].
  unfold UnmarshalGeometry, UnmarshalBSON. rewrite E. reflexivity.
Qed.

Lemma decodeGeometry_unrecognized_type_witness :
  decodeGeometry zeroGeometry
    [("type", VString "Circle");
     ("coordinates", VArray [VInt 1; VInt 2]);
     ("geometries", VArray [VMap []])] =
  (mkGeometry "Circle" [] [] [] [] [] [] [], None).
Proof.
  apply (decodeGeometry_unrecognized_type zeroGeometry
           [("type", VString "Circle");
            ("coordinates", VArray [VInt 1; VInt 2]);
            ("geometries", VArray [VMap []])] "Circle");
    reflexivity.
Defined.

(** ** Failure and the receiver *)

Lemma decodePositionSet_nil_on_error (data : Value) :
  snd (decodePositionSet data) <> None -> fst (decodePositionSet data) = [].
Proof.
  destruct data; try reflexivity.
  rewrite decodePositionSet_array. apply collect_nil_on_error.
Qed.

Lemma decodePathSet_nil_on_error (data : Value) :
  snd (decodePathSet data) <> None -> fst (decodePathSet data) = [].
Proof.
  destruct data; try reflexivity.
  rewrite decodePathSet_array. apply collect_nil_on_error.
Qed.

Lemma decodePolygonSet_nil_on_error (data : Value) :
  snd (decodePolygonSet data) <> None -> fst (decodePolygonSet data) = [].
Proof.
  destruct data; try reflexivity.
  rewrite decodePolygonSet_array. apply collect_nil_on_error.
Qed.

Lemma decodePayload_failed (geoms : list Geometry * option error)
  (g : Geometry) (object : Doc) :
  (snd geoms <> None -> fst geoms = []) ->
  snd (decodePayload geoms g object) <> None ->
  fst (decodePayload geoms g object) = reset_payload g.
Proof.
  intros Hgeoms. unfold decodePayload, reset_payload.
  destruct (String.eqb (gType g) GeometryPoint).
  { pose proof (decodePosition_nil_on_error (index object "coordinates")).
    destruct (decodePosition _) as [x e]. cbn in *.
    intros He. rewrite H; auto. }
  destruct (String.eqb (gType g) GeometryMultiPoint).
  { pose proof (decodePositionSet_nil_on_error (index object "coordinates")).
    destruct (decodePositionSet _) as [x e]. cbn in *.
    intros He. rewrite H; auto. }
  destruct (String.eqb (gType g) GeometryLineString).
  { pose proof (decodePositionSet_nil_on_error (index object "coordinates")).
    destruct (decodePositionSet _) as [x e]. cbn in *.
    intros He. rewrite H; auto. }
  destruct (String.eqb (gType g) GeometryMultiLineString).
  { pose proof (decodePathSet_nil_on_error (index object "coordinates")).
    destruct (decodePathSet _) as [x e]. cbn in *.
    intros He. rewrite H; auto. }
  destruct (String.eqb (gType g) GeometryPolygon).
  { pose proof (decodePathSet_nil_on_error (index object "coordinates")).
    destruct (decodePathSet _) as [x e]. cbn in *.
    intros He. rewrite H; auto. }
  destruct (String.eqb (gType g) GeometryMultiPolygon).
  { pose proof (decodePolygonSet_nil_on_error (index object "coordinates")).
    destruct (decodePolygonSet _) as [x e]. cbn in *.
    intros He. rewrite H; auto. }
  destruct (String.eqb (gType g) GeometryCollection).
  { destruct geoms as [x e]. cbn in *. intros He. rewrite Hgeoms; auto. }
  cbn. congruence.
Qed.

(** C9 as stated fails: decoding [{"type":"Point","coordinates":[[1,2]]}]
    into a fresh geometry fails, and leaves the receiver with its tag set to
    [Point]. *)
Lemma decodeGeometry_atomic_counterexample :
  ~ (forall g object,
        snd (UnmarshalBSON g object) <> None ->
        fst (UnmarshalBSON g object) = g).
Proof.
  intros H.
  specialize (H zeroGeometry
                [("type", VString "Point");
                 ("coordinates", VArray [VArray [VInt 1; VInt 2]])]).
  assert (E : gType zeroGeometry = "Point").
  { rewrite <- H at 1; [reflexivity|]. vm_compute. discriminate. }
  discriminate.
Qed.

(** C9, amended.  [UnmarshalGeometry] is all-or-nothing: it returns a
    geometry and no error, or an error and no geometry; [decodeGeometries]
    and the shape extractors return nothing next to an error.  The in-place
    [decodeGeometry] (and so [UnmarshalBSON]) leaves the receiver untouched
    when [type] is missing or not a string; once [type] is a string, the
    receiver's tag is set before the payload is examined, and a failing
    payload leaves the receiver with that tag and the payload field the tag
    selects empty. *)
Theorem decodeGeometry_on_failure :
  (forall object,
      (exists g, UnmarshalGeometry object = (Some g, None))
      \/ (exists e, UnmarshalGeometry object = (None, Some e)))
  /\ (forall data,
         snd (decodeGeometries data) <> None ->
         fst (decodeGeometries data) = [])
  /\ (forall g object,
         snd (UnmarshalBSON g object) <> None ->
         fst (UnmarshalBSON g object) =
         match lookup "type" object with
         | Some (VString s) => reset_payload (set_Type g s)
         | _ => g
         end).
Proof.
  split; [|split].
  - intros object. unfold UnmarshalGeometry.
    destruct (UnmarshalBSON zeroGeometry object) as [g [e|]]; eauto.
  - exact decodeGeometries_nil_on_error.
  - intros g object. unfold UnmarshalBSON. rewrite decodeGeometry_unfold.
    destruct (lookup "type" object) as [[]|]; try reflexivity.
    apply decodePayload_failed, decodeGeometries_nil_on_error.
Qed.

Lemma decodeGeometry_on_failure_witness :
  fst (UnmarshalBSON (NewPoint [float64_of_int 5])
         [("type", VString "LineString"); ("coordinates", VInt 3)]) =
  mkGeometry "LineString" [float64_of_int 5] [] [] [] [] [] [].
Proof.
  rewrite (proj2 (proj2 decodeGeometry_on_failure)
             (NewPoint [float64_of_int 5])
             [("type", VString "LineString"); ("coordinates", VInt 3)]).
  - reflexivity.
  - cbn. discriminate.
Defined.

(** ** Encoding *)

Lemma length_elements2 (s : slice (slice float64)) :
  length (elements2 s) = len s.
Proof. apply length_map. Qed.

Lemma length_elements3 (s : slice (slice (slice float64))) :
  length (elements3 s) = len s.
Proof. apply length_map. Qed.

Lemma length_elements4 (s : slice (slice (slice (slice float64)))) :
  length (elements4 s) = len s.
Proof. apply length_map. Qed.

Lemma length_children (gs : slice GoGeometry) :
  length (match gs with
          | nil_slice => []
          | alloc l => map contents l
          end) = len gs.
Proof. destruct gs; [reflexivity|apply length_map]. Qed.

Lemma marshal_fields_keys (rule : omitempty_rule) (geo : geometry)
  (coords geoms : Value) :
  keys (marshal_fields rule geo coords geoms) =
  ["type"]
  ++ (if empty_coordinates rule (geoCoordinates geo) then []
      else ["coordinates"])
  ++ (if empty_geometries rule (geoGeometries geo) then []
      else ["geometries"]).
Proof.
  unfold marshal_fields, keys.
  destruct (empty_coordinates _ _), (empty_geometries _ _); reflexivity.
Qed.

(** The keys of the document written for [g]. *)
Lemma MarshalBSON_keys_eq (rule : omitempty_rule) (g : GoGeometry) :
  keys (MarshalBSON rule g) =
  "type" ::
  (if payload_written rule (contents g)
   then if String.eqb (vType g) GeometryCollection then ["geometries"]
        else ["coordinates"]
   else []).
Proof.
  destruct g as [t p ls pg mp mls mpg gs].
  cbn [MarshalBSON]. rewrite marshal_fields_keys.
  unfold toPureGeometry, payload_written, payload_length, mem,
    recognized_tags, coordinate_tags.
  cbn [contents vType vPoint vLineString vPolygon vMultiPoint
         vMultiLineString vMultiPolygon vGeometries
         gType gPoint gLineString gPolygon gMultiPoint gMultiLineString
         gMultiPolygon gGeometries app existsb].
  rewrite !length_elements2, !length_elements3, length_elements4,
    length_children.
  fold (len p).
  destruct (String.eqb_spec t GeometryPoint) as [->|];
    [destruct rule; cbn -[len]; try destruct (Nat.eqb (len p) 0);
     reflexivity|].
  destruct (String.eqb_spec t GeometryMultiPoint) as [->|];
    [destruct rule; cbn -[len]; try destruct (Nat.eqb (len mp) 0);
     reflexivity|].
  destruct (String.eqb_spec t GeometryLineString) as [->|];
    [destruct rule; cbn -[len]; try destruct (Nat.eqb (len ls) 0);
     reflexivity|].
  destruct (String.eqb_spec t GeometryMultiLineString) as [->|];
    [destruct rule; cbn -[len]; try destruct (Nat.eqb (len mls) 0);
     reflexivity|].
  destruct (String.eqb_spec t GeometryPolygon) as [->|];
    [destruct rule; cbn -[len]; try destruct (Nat.eqb (len pg) 0);
     reflexivity|].
  destruct (String.eqb_spec t GeometryMultiPolygon) as [->|];
    [destruct rule; cbn -[len]; try destruct (Nat.eqb (len mpg) 0);
     reflexivity|].
  destruct (String.eqb_spec t GeometryCollection) as [->|];
    [destruct rule; cbn -[len]; try destruct (Nat.eqb (len gs) 0);
     reflexivity|].
  destruct rule; reflexivity.
Qed.

Lemma lookup_keys (k : string) (object : Doc) :
  ~ In k (keys object) -> lookup k object = None.
Proof.
  induction object as [|[k' v] object IH]; [reflexivity|].
  cbn. intros H. destruct (String.eqb_spec k' k) as [->|_].
  - destruct H. left. reflexivity.
  - apply IH. intros Hin. apply H. right. exact Hin.
Qed.

Lemma coordinate_tag_not_collection (t : GeometryType) :
  mem t coordinate_tags = true -> String.eqb t GeometryCollection = false.
Proof.
  unfold mem, coordinate_tags. cbn [existsb].
  destruct (String.eqb_spec t GeometryPoint) as [->|]; [reflexivity|].
  destruct (String.eqb_spec t GeometryMultiPoint) as [->|]; [reflexivity|].
  destruct (String.eqb_spec t GeometryLineString) as [->|]; [reflexivity|].
  destruct (String.eqb_spec t GeometryMultiLineString) as [->|];
    [reflexivity|].
  destruct (String.eqb_spec t GeometryPolygon) as [->|]; [reflexivity|].
  destruct (String.eqb_spec t GeometryMultiPolygon) as [->|]; [reflexivity|].
  discriminate.
Qed.

Lemma coordinate_tag_recognized (t : GeometryType) :
  mem t coordinate_tags = true -> mem t recognized_tags = true.
Proof.
  unfold mem, recognized_tags. intros H. rewrite existsb_app.
  apply orb_true_iff. left. exact H.
Qed.

Lemma payload_length_unrecognized (g : Geometry) :
  mem (gType g) recognized_tags = false -> payload_length g = 0.
Proof.
  unfold mem, recognized_tags, coordinate_tags, payload_length.
  cbn [app existsb].
  destruct (String.eqb (gType g) GeometryPoint); [discriminate|].
  destruct (String.eqb (gType g) GeometryMultiPoint); [discriminate|].
  destruct (String.eqb (gType g) GeometryLineString); [discriminate|].
  destruct (String.eqb (gType g) GeometryMultiLineString); [discriminate|].
  destruct (String.eqb (gType g) GeometryPolygon); [discriminate|].
  destruct (String.eqb (gType g) GeometryMultiPolygon); [discriminate|].
  destruct (String.eqb (gType g) GeometryCollection); [discriminate|].
  reflexivity.
Qed.

Lemma payload_written_populated (rule : omitempty_rule) (g : Geometry) :
  mem (gType g) recognized_tags = true ->
  rule = NilInterface \/ payload_length g <> 0 ->
  payload_written rule g = true.
Proof.
  intros Ht [->|Hlen]; [exact Ht|].
  destruct rule; [exact Ht|]. cbn.
  destruct (Nat.eqb_spec (payload_length g) 0); [contradiction|reflexivity].
Qed.

Lemma payload_written_unrecognized (rule : omitempty_rule) (g : Geometry) :
  mem (gType g) recognized_tags = false -> payload_written rule g = false.
Proof.
  intros Ht. destruct rule; [exact Ht|]. cbn.
  rewrite (payload_length_unrecognized g Ht). reflexivity.
Qed.

Lemma contents_Type (g : GoGeometry) : gType (contents g) = vType g.
Proof. destruct g. reflexivity. Qed.

(** C7 as stated fails: for a geometry whose tag is none of the seven,
    [toPureGeometry] sets neither payload field, and the document has the
    [type] key alone under either reading of [omitempty]. *)
Lemma MarshalBSON_keys_counterexample :
  ~ (forall rule g,
        keys (MarshalBSON rule g) = ["type"; "coordinates"] \/
        keys (MarshalBSON rule g) = ["type"; "geometries"]).
Proof.
  intros H.
  destruct (H NilInterface
              (mkGo "Circle" (alloc [float64_of_int 1]) nil_slice nil_slice
                 nil_slice nil_slice nil_slice nil_slice))
    as [E|E]; discriminate.
Qed.

(** C7, amended.  The document written for a geometry always starts with
    [type], holding the tag.  For a geometry whose tag is one of the six
    coordinate-bearing tags the keys are [type] then [coordinates], and for
    a [GeometryCollection] they are [type] then [geometries], provided the
    selected payload is not empty or [omitempty] tests the interface alone.
    The unused payload key is absent from the document (and so not written
    as null either): no [geometries] for a coordinate-bearing tag, no
    [coordinates] for a collection.  For any other tag, [type] is the only
    key. *)
Theorem MarshalBSON_keys :
  (forall rule g,
      hd_error (MarshalBSON rule g) = Some ("type", VString (vType g)))
  /\ (forall rule g,
         mem (vType g) coordinate_tags = true ->
         rule = NilInterface \/ payload_length (contents g) <> 0 ->
         keys (MarshalBSON rule g) = ["type"; "coordinates"])
  /\ (forall rule g,
         vType g = GeometryCollection ->
         rule = NilInterface \/ payload_length (contents g) <> 0 ->
         keys (MarshalBSON rule g) = ["type"; "geometries"])
  /\ (forall rule g,
         mem (vType g) coordinate_tags = true ->
         ~ In "geometries" (keys (MarshalBSON rule g))
         /\ lookup "geometries" (MarshalBSON rule g) = None)
  /\ (forall rule g,
         vType g = GeometryCollection ->
         ~ In "coordinates" (keys (MarshalBSON rule g))
         /\ lookup "coordinates" (MarshalBSON rule g) = None)
  /\ (forall rule g,
         mem (vType g) recognized_tags = false ->
         keys (MarshalBSON rule g) = ["type"]).
Proof.
  split; [|split; [|split; [|split; [|split]]]].
  - intros rule [t p ls pg mp mls mpg gs]. cbn [MarshalBSON].
    unfold marshal_fields. cbn [app hd_error]. f_equal. f_equal. f_equal.
    unfold toPureGeometry. cbn [vType].
    repeat match goal with
           | |- context [if ?b then _ else _] => destruct b
           end; reflexivity.
  - intros rule g Ht Hlen. rewrite MarshalBSON_keys_eq.
    rewrite (coordinate_tag_not_collection _ Ht).
    rewrite payload_written_populated; [reflexivity| |exact Hlen].
    rewrite contents_Type. apply coordinate_tag_recognized, Ht.
  - intros rule g Ht Hlen. rewrite MarshalBSON_keys_eq.
    rewrite payload_written_populated; [rewrite Ht; reflexivity| |exact Hlen].
    rewrite contents_Type, Ht. reflexivity.
  - intros rule g Ht.
    assert (H : ~ In "geometries" (keys (MarshalBSON rule g))).
    { rewrite MarshalBSON_keys_eq.
      rewrite (coordinate_tag_not_collection _ Ht).
      destruct (payload_written rule (contents g)); cbn;
        intuition discriminate. }
    split; [exact H|apply lookup_keys, H].
  - intros rule g Ht.
    assert (H : ~ In "coordinates" (keys (MarshalBSON rule g))).
    { rewrite MarshalBSON_keys_eq, Ht.
      destruct (payload_written rule (contents g)); cbn;
        intuition discriminate. }
    split; [exact H|apply lookup_keys, H].
  - intros rule g Ht. rewrite MarshalBSON_keys_eq.
    rewrite payload_written_unrecognized; [reflexivity|].
    rewrite contents_Type. exact Ht.
Qed.

Lemma MarshalBSON_keys_witness :
  keys (MarshalBSON ZeroLength
          (allocate (NewPoint [float64_of_int 1; float64_of_int 2]))) =
  ["type"; "coordinates"]
  /\ keys (MarshalBSON ZeroLength
             (allocate
                (NewGeometryCollection [NewPoint [float64_of_int 1]]))) =
     ["type"; "geometries"]
  /\ lookup "geometries"
       (MarshalBSON ZeroLength
          (allocate (NewPoint [float64_of_int 1; float64_of_int 2]))) = None.
Proof.
  destruct MarshalBSON_keys as (_ & Hc & Hg & Hno & _).
  split; [|split].
  - apply Hc; [reflexivity|]. right. cbn. discriminate.
  - apply Hg; [reflexivity|]. right. cbn. discriminate.
  - apply Hno. reflexivity.
Defined.

(** The document written for [g], by cases on what is written. *)
Lemma MarshalBSON_eq (rule : omitempty_rule) (g : GoGeometry) :
  MarshalBSON rule g =
  ("type", VString (vType g)) ::
  (if payload_written rule (contents g)
   then if String.eqb (vType g) GeometryCollection
        then [("geometries",
               value_of_slice (fun c => VMap (MarshalBSON rule c))
                 (vGeometries g))]
        else [("coordinates", coordinates_value (toPureGeometry g))]
   else []).
Proof.
  destruct g as [t p ls pg mp mls mpg gs].
  cbn [MarshalBSON].
  unfold marshal_fields, toPureGeometry, payload_written, payload_length, mem,
    recognized_tags, coordinate_tags.
  cbn [contents vType vPoint vLineString vPolygon vMultiPoint
         vMultiLineString vMultiPolygon vGeometries
         gType gPoint gLineString gPolygon gMultiPoint gMultiLineString
         gMultiPolygon gGeometries app existsb].
  rewrite !length_elements2, !length_elements3, length_elements4,
    length_children.
  fold (len p).
  destruct (String.eqb_spec t GeometryPoint) as [->|];
    [destruct rule; cbn -[len value_of_Point];
     try destruct (Nat.eqb (len p) 0); reflexivity|].
  destruct (String.eqb_spec t GeometryMultiPoint) as [->|];
    [destruct rule; cbn -[len value_of_Points];
     try destruct (Nat.eqb (len mp) 0); reflexivity|].
  destruct (String.eqb_spec t GeometryLineString) as [->|];
    [destruct rule; cbn -[len value_of_Points];
     try destruct (Nat.eqb (len ls) 0); reflexivity|].
  destruct (String.eqb_spec t GeometryMultiLineString) as [->|];
    [destruct rule; cbn -[len value_of_Paths];
     try destruct (Nat.eqb (len mls) 0); reflexivity|].
  destruct (String.eqb_spec t GeometryPolygon) as [->|];
    [destruct rule; cbn -[len value_of_Paths];
     try destruct (Nat.eqb (len pg) 0); reflexivity|].
  destruct (String.eqb_spec t GeometryMultiPolygon) as [->|];
    [destruct rule; cbn -[len value_of_Polygons];
     try destruct (Nat.eqb (len mpg) 0); reflexivity|].
  destruct (String.eqb_spec t GeometryCollection) as [->|];
    [destruct rule; cbn -[len MarshalBSON];
     try destruct (Nat.eqb (len gs) 0); destruct gs; reflexivity|].
  destruct rule; reflexivity.
Qed.

(** ** Round trip *)

Lemma collect_render {A B : Type} (dec : Value -> B * option error)
  (render : A -> Value) (e : A -> B) (l : list A) :
  Forall (fun x => dec (render x) = (e x, None)) l ->
  collect dec (map render l) = (map e l, None).
Proof.
  induction 1 as [|x l Hx _ IH]; [reflexivity|].
  cbn [map collect]. rewrite Hx, IH. reflexivity.
Qed.

Lemma decodePosition_render (p : slice float64) :
  allocated_Point p = true ->
  decodePosition (value_of_Point p) = (elements p, None).
Proof.
  destruct p as [|l]; [discriminate|]. intros _.
  cbn [value_of_Point value_of_slice elements].
  rewrite decodePosition_array.
  assert (H : first_non_number (map VFloat64 l) = None
              /\ numbers (map VFloat64 l) = l).
  { induction l as [|f l [IH1 IH2]]; [split; reflexivity|].
    cbn. rewrite IH1, IH2. split; reflexivity. }
  destruct H as [-> ->]. reflexivity.
Qed.

Lemma decodePositionSet_render (ps : slice (slice float64)) :
  allocated_Points ps = true ->
  decodePositionSet (value_of_Points ps) = (elements2 ps, None).
Proof.
  destruct ps as [|l]; [discriminate|].
  unfold allocated_Points. cbn [allocated_slice]. intros H.
  unfold value_of_Points, elements2. cbn [value_of_slice elements].
  rewrite decodePositionSet_array. apply collect_render.
  rewrite forallb_forall in H. apply Forall_forall.
  intros x Hx. apply decodePosition_render, H, Hx.
Qed.

Lemma decodePathSet_render (pss : slice (slice (slice float64))) :
  allocated_Paths pss = true ->
  decodePathSet (value_of_Paths pss) = (elements3 pss, None).
Proof.
  destruct pss as [|l]; [discriminate|].
  unfold allocated_Paths. cbn [allocated_slice]. intros H.
  unfold value_of_Paths, elements3. cbn [value_of_slice elements].
  rewrite decodePathSet_array. apply collect_render.
  rewrite forallb_forall in H. apply Forall_forall.
  intros x Hx. apply decodePositionSet_render, H, Hx.
Qed.

Lemma decodePolygonSet_render (psss : slice (slice (slice (slice float64)))) :
  allocated_Polygons psss = true ->
  decodePolygonSet (value_of_Polygons psss) = (elements4 psss, None).
Proof.
  destruct psss as [|l]; [discriminate|].
  unfold allocated_Polygons. cbn [allocated_slice]. intros H.
  unfold value_of_Polygons, elements4. cbn [value_of_slice elements].
  rewrite decodePolygonSet_array. apply collect_render.
  rewrite forallb_forall in H. apply Forall_forall.
  intros x Hx. apply decodePathSet_render, H, Hx.
Qed.

Lemma decodeGeometries_render (rule : omitempty_rule) (l : list GoGeometry) :
  Forall (fun c => decodeGeometry zeroGeometry (MarshalBSON rule c) =
                   (selected (contents c), None)) l ->
  decodeGeometries (VArray (map (fun c => VMap (MarshalBSON rule c)) l)) =
  (map selected (map contents l), None).
Proof.
  intros H. rewrite decodeGeometries_ok.
  - f_equal. induction H as [|c l Hc _ IH]; [reflexivity|].
    cbn [map child]. rewrite Hc, IH. reflexivity.
  - induction H as [|c l Hc _ IH]; constructor; [|exact IH].
    exists (MarshalBSON rule c). rewrite Hc. split; reflexivity.
Qed.

Lemma writable_written (rule : omitempty_rule) (g : Geometry) :
  writable rule g = true -> mem (gType g) recognized_tags = true ->
  payload_written rule g = true.
Proof.
  destruct g as [t p ls pg mp mls mpg gs]. cbn [writable gType].
  intros H Ht. apply andb_prop in H as [H _]. rewrite Ht in H. exact H.
Qed.

(** One step of decoding what was encoded: a geometry whose children decode
    back decodes back. *)
Lemma decode_after_encode (rule : omitempty_rule)
  (t : GeometryType) (p : slice float64) (ls : slice (slice float64))
  (pg : slice (slice (slice float64))) (mp : slice (slice float64))
  (mls : slice (slice (slice float64)))
  (mpg : slice (slice (slice (slice float64)))) (gs : slice GoGeometry) :
  Forall (fun c => writable rule (contents c) = true ->
                   allocated c = true ->
                   decodeGeometry zeroGeometry (MarshalBSON rule c) =
                   (selected (contents c), None)) (elements gs) ->
  writable rule (contents (mkGo t p ls pg mp mls mpg gs)) = true ->
  allocated (mkGo t p ls pg mp mls mpg gs) = true ->
  decodeGeometry zeroGeometry
    (MarshalBSON rule (mkGo t p ls pg mp mls mpg gs)) =
  (selected (contents (mkGo t p ls pg mp mls mpg gs)), None).
Proof.
  intros IH Hw Ha. rewrite MarshalBSON_eq.
  destruct (String.eqb_spec t GeometryPoint) as [->|N1].
  { rewrite (writable_written _ _ Hw eq_refl).
    change (allocated_Point p = true) in Ha.
    rewrite decodeGeometry_unfold. run_codec.
    rewrite (decodePosition_render p Ha). reflexivity. }
  destruct (String.eqb_spec t GeometryMultiPoint) as [->|N2].
  { rewrite (writable_written _ _ Hw eq_refl).
    change (allocated_Points mp = true) in Ha.
    rewrite decodeGeometry_unfold. run_codec.
    rewrite (decodePositionSet_render mp Ha). reflexivity. }
  destruct (String.eqb_spec t GeometryLineString) as [->|N3].
  { rewrite (writable_written _ _ Hw eq_refl).
    change (allocated_Points ls = true) in Ha.
    rewrite decodeGeometry_unfold. run_codec.
    rewrite (decodePositionSet_render ls Ha). reflexivity. }
  destruct (String.eqb_spec t GeometryMultiLineString) as [->|N4].
  { rewrite (writable_written _ _ Hw eq_refl).
    change (allocated_Paths mls = true) in Ha.
    rewrite decodeGeometry_unfold. run_codec.
    rewrite (decodePathSet_render mls Ha). reflexivity. }
  destruct (String.eqb_spec t GeometryPolygon) as [->|N5].
  { rewrite (writable_written _ _ Hw eq_refl).
    change (allocated_Paths pg = true) in Ha.
    rewrite decodeGeometry_unfold. run_codec.
    rewrite (decodePathSet_render pg Ha). reflexivity. }
  destruct (String.eqb_spec t GeometryMultiPolygon) as [->|N6].
  { rewrite (writable_written _ _ Hw eq_refl).
    change (allocated_Polygons mpg = true) in Ha.
    rewrite decodeGeometry_unfold. run_codec.
    rewrite (decodePolygonSet_render mpg Ha). reflexivity. }
  destruct (String.eqb_spec t GeometryCollection) as [->|N7].
  { rewrite (writable_written _ _ Hw eq_refl).
    destruct gs as [|l]; [discriminate|].
    change (forallb allocated l = true) in Ha.
    assert (Hkids : forallb (writable rule) (map contents l) = true).
    { cbn [writable contents gType gGeometries vType vGeometries] in Hw.
      apply andb_prop in Hw as [_ Hw]. exact Hw. }
    assert (Hl : Forall (fun c => decodeGeometry zeroGeometry
                                    (MarshalBSON rule c) =
                                  (selected (contents c), None)) l).
    { rewrite forallb_forall in Hkids, Ha.
      cbn [elements] in IH. rewrite Forall_forall in IH |- *.
      intros c Hc. apply IH; [exact Hc| |apply Ha, Hc].
      apply Hkids, in_map, Hc. }
    rewrite decodeGeometry_unfold. run_codec. cbn [value_of_slice].
    rewrite (decodeGeometries_render rule l Hl). reflexivity. }
  apply String.eqb_neq in N1, N2, N3, N4, N5, N6, N7.
  assert (Hu : mem t recognized_tags = false).
  { unfold mem, recognized_tags, coordinate_tags. cbn [app existsb].
    rewrite N1, N2, N3, N4, N5, N6, N7. reflexivity. }
  rewrite payload_written_unrecognized by exact Hu.
  cbn [vType]. rewrite decodeGeometry_unfold.
  change (lookup "type" [("type", VString t)]) with (Some (VString t)).
  cbv beta iota.
  rewrite decodePayload_unrecognized by exact Hu.
  cbn [selected contents set_Type zeroGeometry vType gType gPoint gLineString
         gPolygon gMultiPoint gMultiLineString gMultiPolygon gGeometries].
  rewrite N1, N2, N3, N4, N5, N6, N7. reflexivity.
Qed.
Lemma unset_nil {A : Type} (l : list A) : unset l = true -> l = [].
Proof. destruct l; [reflexivity|discriminate]. Qed.

Lemma populated_length {A : Type} (l : list A) :
  populated l = true -> Nat.eqb (length l) 0 = false.
Proof. unfold populated. destruct (Nat.eqb (length l) 0); auto. Qed.

(** The seven ways a geometry satisfies [payload_matches] under a recognized
    tag: it is what the constructor of its variant builds from a populated
    payload. *)
Lemma well_formed_cases (g : Geometry) :
  mem (gType g) recognized_tags = true -> payload_matches g = true ->
  (exists p, g = NewPoint p /\ populated p = true)
  \/ (exists ps, g = NewMultiPoint ps /\ populated ps = true)
  \/ (exists ps, g = NewLineString ps /\ populated ps = true)
  \/ (exists pss, g = NewMultiLineString pss /\ populated pss = true)
  \/ (exists pss, g = NewPolygon pss /\ populated pss = true)
  \/ (exists psss, g = NewMultiPolygon psss /\ populated psss = true)
  \/ (exists gs, g = NewGeometryCollection gs /\ populated gs = true).
Proof.
  destruct g as [t p ls pg mp mls mpg gs].
  unfold mem, recognized_tags, coordinate_tags, payload_matches.
  cbn [app existsb gType gPoint gLineString gPolygon gMultiPoint
         gMultiLineString gMultiPolygon gGeometries].
  intros Ht Hp.
  destruct (String.eqb_spec t GeometryPoint) as [->|].
  { cbn -[populated unset] in Hp.
    repeat (apply andb_prop in Hp as [Hp ?]).
    repeat match goal with H : unset _ = true |- _ =>
             apply unset_nil in H; subst end.
    left. eexists; split; [reflexivity|assumption]. }
  destruct (String.eqb_spec t GeometryMultiPoint) as [->|].
  { cbn -[populated unset] in Hp.
    repeat (apply andb_prop in Hp as [Hp ?]).
    repeat match goal with H : unset _ = true |- _ =>
             apply unset_nil in H; subst end.
    right; left. eexists; split; [reflexivity|assumption]. }
  destruct (String.eqb_spec t GeometryLineString) as [->|].
  { cbn -[populated unset] in Hp.
    repeat (apply andb_prop in Hp as [Hp ?]).
    repeat match goal with H : unset _ = true |- _ =>
             apply unset_nil in H; subst end.
    do 2 right; left. eexists; split; [reflexivity|assumption]. }
  destruct (String.eqb_spec t GeometryMultiLineString) as [->|].
  { cbn -[populated unset] in Hp.
    repeat (apply andb_prop in Hp as [Hp ?]).
    repeat match goal with H : unset _ = true |- _ =>
             apply unset_nil in H; subst end.
    do 3 right; left. eexists; split; [reflexivity|assumption]. }
  destruct (String.eqb_spec t GeometryPolygon) as [->|].
  { cbn -[populated unset] in Hp.
    repeat (apply andb_prop in Hp as [Hp ?]).
    repeat match goal with H : unset _ = true |- _ =>
             apply unset_nil in H; subst end.
    do 4 right; left. eexists; split; [reflexivity|assumption]. }
  destruct (String.eqb_spec t GeometryMultiPolygon) as [->|].
  { cbn -[populated unset] in Hp.
    repeat (apply andb_prop in Hp as [Hp ?]).
    repeat match goal with H : unset _ = true |- _ =>
             apply unset_nil in H; subst end.
    do 5 right; left. eexists; split; [reflexivity|assumption]. }
  destruct (String.eqb_spec t GeometryCollection) as [->|]; [|discriminate].
  cbn -[populated unset] in Hp.
  repeat (apply andb_prop in Hp as [Hp ?]).
  repeat match goal with H : unset _ = true |- _ =>
           apply unset_nil in H; subst end.
  do 6 right. eexists; split; [reflexivity|assumption].
Qed.


Lemma well_formed_writable (rule : omitempty_rule) (g : Geometry) :
  well_formed g = true -> writable rule g = true.
Proof.
  induction g as [t p ls pg mp mls mpg gs IH] using Geometry_nested_ind.
  intros Hwf. cbn [well_formed gGeometries] in Hwf.
  apply andb_prop in Hwf as [Hwf Hkids].
  apply andb_prop in Hwf as [Htag Hpay].
  cbn [writable gType gGeometries]. apply andb_true_intro. split.
  - apply orb_true_iff. right. apply payload_written_populated; [exact Htag|].
    right.
    destruct (well_formed_cases _ Htag Hpay)
      as [(x & E & Hx)|[(x & E & Hx)|[(x & E & Hx)|[(x & E & Hx)
         |[(x & E & Hx)|[(x & E & Hx)|(x & E & Hx)]]]]]]; rewrite E;
      apply populated_length in Hx; intros H0; cbn in H0;
      rewrite H0 in Hx; discriminate.
  - apply orb_true_iff. right. apply forallb_forall. intros c Hc.
    rewrite Forall_forall in IH. apply IH; [exact Hc|].
    rewrite forallb_forall in Hkids. apply Hkids, Hc.
Qed.

Lemma well_formed_selected (g : Geometry) :
  well_formed g = true -> selected g = g.
Proof.
  induction g as [t p ls pg mp mls mpg gs IH] using Geometry_nested_ind.
  intros Hwf. cbn [well_formed gGeometries] in Hwf.
  apply andb_prop in Hwf as [Hwf Hkids].
  apply andb_prop in Hwf as [Htag Hpay].
  assert (Hgs : map selected gs = gs).
  { rewrite forallb_forall in Hkids. rewrite Forall_forall in IH.
    rewrite <- (map_id gs) at 2. apply map_ext_in.
    intros c Hc. apply IH; [exact Hc|apply Hkids, Hc]. }
  destruct (well_formed_cases _ Htag Hpay)
    as [(x & E & Hx)|[(x & E & Hx)|[(x & E & Hx)|[(x & E & Hx)
       |[(x & E & Hx)|[(x & E & Hx)|(x & E & Hx)]]]]]];
    injection E as -> -> -> -> -> -> -> ->; try reflexivity.
  cbn [selected NewGeometryCollection gType gGeometries].
  cbn. cbn in Hgs. rewrite Hgs. reflexivity.
Qed.

(** C1 as stated fails: a [MultiPoint] holding a nil position beside the
    position [1, 2] is well-formed, the nil slice is written as null, and
    [decodePosition] rejects the null. *)
Lemma decode_encode_roundtrip_counterexample :
  ~ (forall rule g,
        well_formed (contents g) = true ->
        decodeGeometry zeroGeometry (MarshalBSON rule g) =
        (contents g, None)).
Proof.
  intros H.
  specialize (H NilInterface
                (mkGo GeometryMultiPoint nil_slice nil_slice nil_slice
                   (alloc [nil_slice;
                           alloc [float64_of_int 1; float64_of_int 2]])
                   nil_slice nil_slice nil_slice)
                eq_refl).
  vm_compute in H. discriminate.
Qed.

(** C1, amended.  For every well-formed geometry [g] (its tag one of the
    seven, the payload field the tag selects populated and the others empty,
    every child of a collection well-formed in turn) in which no slice of a
    selected payload is nil, at any depth, decoding the document written for
    [g] gives back the tag and the sequences of [g], the order of every
    sequence and of the children of a collection kept; this under either
    reading of [omitempty]. *)
Theorem decode_encode_roundtrip :
  forall rule g,
    well_formed (contents g) = true ->
    allocated g = true ->
    decodeGeometry zeroGeometry (MarshalBSON rule g) = (contents g, None)
    /\ UnmarshalGeometry (MarshalBSON rule g) = (Some (contents g), None).
Proof.
  intros rule g Hwf Ha.
  assert (R : forall c, writable rule (contents c) = true ->
                        allocated c = true ->
                        decodeGeometry zeroGeometry (MarshalBSON rule c) =
                        (selected (contents c), None)).
  { induction c as [t p ls pg mp mls mpg gs IH] using GoGeometry_nested_ind.
    apply decode_after_encode, IH. }
  assert (E : decodeGeometry zeroGeometry (MarshalBSON rule g) =
              (contents g, None)).
  { rewrite (R g (well_formed_writable rule _ Hwf) Ha).
    rewrite (well_formed_selected _ Hwf). reflexivity. }
  split; [exact E|].
  unfold UnmarshalGeometry, UnmarshalBSON. rewrite E. reflexivity.
Qed.

Lemma decode_encode_roundtrip_witness :
  decodeGeometry zeroGeometry
    (MarshalBSON ZeroLength
       (allocate
          (NewGeometryCollection
             [NewPoint [float64_of_int 1; float64_of_int 2];
              NewMultiLineString
                [[[float64_of_int 1; float64_of_int 2];
                  [float64_of_int 3; float64_of_int 4]]];
              NewGeometryCollection [NewMultiPoint [[float64_of_int 5]]]]))) =
  (contents
     (allocate
        (NewGeometryCollection
           [NewPoint [float64_of_int 1; float64_of_int 2];
            NewMultiLineString
              [[[float64_of_int 1; float64_of_int 2];
                [float64_of_int 3; float64_of_int 4]]];
            NewGeometryCollection [NewMultiPoint [[float64_of_int 5]]]])),
   None).
Proof.
  apply decode_encode_roundtrip; reflexivity.
Defined.

(** ** The scenarios of the test suite *)

Example encode_Point_1_2 :
  forall rule,
    MarshalBSON rule
      (allocate (NewPoint [float64_of_int 1; float64_of_int 2])) =
    [("type", VString "Point");
     ("coordinates",
      VArray [VFloat64 (S754_finite false 4503599627370496 (-52));
              VFloat64 (S754_finite false 4503599627370496 (-51))])].
Proof. intros []; reflexivity. Qed.

(** [NewGeometryCollection()] and [NewPoint(nil)], written where [omitempty]
    tests the interface alone: the payload key holds null. *)
Example encode_nil_payload :
  MarshalBSON NilInterface
    (mkGo GeometryCollection nil_slice nil_slice nil_slice nil_slice
       nil_slice nil_slice nil_slice) =
  [("type", VString "GeometryCollection"); ("geometries", VNil)]
  /\ MarshalBSON NilInterface
       (mkGo GeometryPoint nil_slice nil_slice nil_slice nil_slice
          nil_slice nil_slice nil_slice) =
     [("type", VString "Point"); ("coordinates", VNil)].
Proof. split; reflexivity. Qed.

Example decode_MultiPolygon :
  let ring (a b c d : Z) :=
    VArray [VArray [VInt32 a; VInt32 b]; VArray [VInt32 c; VInt32 d]] in
  let g :=
    fst (decodeGeometry zeroGeometry
           [("type", VString "MultiPolygon");
            ("coordinates",
             VArray [VArray [ring 1 2 3 4; ring 5 6 7 8];
                     VArray [ring 8 7 6 5; ring 4 3 2 1]]%Z)]) in
  IsMultiPolygon g = true
  /\ length (gMultiPolygon g) = 2
  /\ nth_error (gMultiPolygon g) 0 =
     Some [[[float64_of_int 1; float64_of_int 2];
            [float64_of_int 3; float64_of_int 4]];
           [[float64_of_int 5; float64_of_int 6];
            [float64_of_int 7; float64_of_int 8]]].
Proof. repeat split. Qed.

Example decode_GeometryCollection :
  let line (a b c d : Z) :=
    VArray [VArray [VInt32 a; VInt32 b]; VArray [VInt32 c; VInt32 d]] in
  let r :=
    decodeGeometry zeroGeometry
      [("type", VString "GeometryCollection");
       ("geometries",
        VArray
          [VMap [("type", VString "Point");
                 ("coordinates",
                  VArray [VFloat64 (float64_of_int 102); VInt32 0])];
           VMap [("type", VString "MultiLineString");
                 ("coordinates",
                  VArray [line 1 2 3 4; line 5 6 7 8]%Z)]])] in
  snd r = None
  /\ map IsPoint (gGeometries (fst r)) = [true; false]
  /\ map IsMultiLineString (gGeometries (fst r)) = [false; true].
Proof. repeat split. Qed.

Example decode_without_type :
  decodeGeometry zeroGeometry [("coordinates", VArray [VInt32 1; VInt32 2])] =
  (zeroGeometry, Some TypeNotDefined).
Proof. reflexivity. Qed.

(** * Further properties of the codec *)

(** ** Paths and polygons *)

Lemma mismatch_level (d : nat) (v : Value) (k : ErrorKind) :
  mismatch d v = Some k -> exists j, j <= d /\ k = level_kind j.
Proof.
  revert v. induction d as [|d IH]; intros v; cbn [mismatch].
  - destruct (is_number v); [discriminate|].
    intros [= <-]. exists 0. split; [lia|reflexivity].
  - destruct v; try (intros [= <-]; exists (S d); split; [lia|reflexivity]).
    induction a as [|x a IHa]; cbn [map first_some]; [discriminate|].
    destruct (mismatch d x) eqn:Hx; [|exact IHa].
    intros [= <-]. destruct (IH x Hx) as (j & Hj & Hk).
    exists j. split; [lia|exact Hk].
Qed.

Lemma first_mismatch_level (d : nat) (a : list Value) (k : ErrorKind) :
  first_some (map (mismatch d) a) = Some k ->
  exists j, j <= d /\ k = level_kind j.
Proof.
  induction a as [|x a IHa]; cbn [map first_some]; [discriminate|].
  destruct (mismatch d x) eqn:Hx; [|exact IHa].
  intros [= <-]. exact (mismatch_level d x _ Hx).
Qed.

Lemma level_kind_path (j : nat) :
  j <= 2 -> level_kind j <> InvalidPathSequence.
Proof. destruct j as [|[|[|j]]]; [discriminate..|lia]. Qed.

Lemma level_kind_polygon (j : nat) :
  j <= 3 -> level_kind j <> InvalidPolygonSequence.
Proof. destruct j as [|[|[|[|j]]]]; [discriminate..|lia]. Qed.

(** X1.  On a sequence, [decodePathSet] returns the error of the first
    element that fails [decodePositionSet], unchanged, and no paths; it
    succeeds exactly when the input is a sequence whose every element
    decodes, and then returns the decoded elements in order; it fails with
    [InvalidPathSequence] exactly when the input is not a sequence. *)
Theorem decodePathSet_first_failure :
  (forall pre p post e,
      Forall (accepts decodePositionSet) pre ->
      snd (decodePositionSet p) = Some e ->
      decodePathSet (VArray (pre ++ p :: post)) = ([], Some e))
  /\ (forall data,
         snd (decodePathSet data) = None <->
         exists sets,
           data = VArray sets /\ Forall (accepts decodePositionSet) sets)
  /\ (forall sets,
         Forall (accepts decodePositionSet) sets ->
         decodePathSet (VArray sets) =
         (map (fun x => fst (decodePositionSet x)) sets, None))
  /\ (forall data,
         failure (decodePathSet data) = Some InvalidPathSequence <->
         is_array data = false).
Proof.
  split; [|split; [|split]].
  - intros pre p post e Hpre Hp.
    rewrite decodePathSet_array. apply collect_err; assumption.
  - intros data. split.
    + destruct data; try discriminate.
      rewrite decodePathSet_array, collect_success. eauto.
    + intros (sets & -> & H).
      rewrite decodePathSet_array. apply collect_success, H.
  - intros sets H. rewrite decodePathSet_array. apply collect_ok, H.
  - intros data. destruct data; cbn [is_array];
      try (split; [reflexivity|]; intros _; reflexivity).
    split; [|discriminate].
    rewrite failure_decodePathSet.
    change (mismatch 3 (VArray a)) with (first_some (map (mismatch 2) a)).
    intros H. exfalso.
    destruct (first_mismatch_level 2 a _ H) as (j & Hj & Hk).
    symmetry in Hk. exact (level_kind_path j Hj Hk).
Qed.

Lemma decodePathSet_first_failure_witness :
  decodePathSet
    (VArray ([VArray [VArray [VInt 1; VInt 2]]] ++ VInt 7 :: [VNil])) =
  ([], Some (NotValidPositionSet (VInt 7))).
Proof.
  apply (proj1 decodePathSet_first_failure
           [VArray [VArray [VInt 1; VInt 2]]] (VInt 7) [VNil]
           (NotValidPositionSet (VInt 7))).
  - repeat constructor.
  - reflexivity.
Defined.

(** X2.  On a sequence, [decodePolygonSet] returns the error of the first
    element that fails [decodePathSet], unchanged, and no polygons; it
    succeeds exactly when the input is a sequence whose every element
    decodes, and then returns the decoded elements in order; it fails with
    [InvalidPolygonSequence] exactly when the input is not a sequence. *)
Theorem decodePolygonSet_first_failure :
  (forall pre p post e,
      Forall (accepts decodePathSet) pre ->
      snd (decodePathSet p) = Some e ->
      decodePolygonSet (VArray (pre ++ p :: post)) = ([], Some e))
  /\ (forall data,
         snd (decodePolygonSet data) = None <->
         exists polygons,
           data = VArray polygons /\ Forall (accepts decodePathSet) polygons)
  /\ (forall polygons,
         Forall (accepts decodePathSet) polygons ->
         decodePolygonSet (VArray polygons) =
         (map (fun x => fst (decodePathSet x)) polygons, None))
  /\ (forall data,
         failure (decodePolygonSet data) = Some InvalidPolygonSequence <->
         is_array data = false).
Proof.
  split; [|split; [|split]].
  - intros pre p post e Hpre Hp.
    rewrite decodePolygonSet_array. apply collect_err; assumption.
  - intros data. split.
    + destruct data; try discriminate.
      rewrite decodePolygonSet_array, collect_success. eauto.
    + intros (polygons & -> & H).
      rewrite decodePolygonSet_array. apply collect_success, H.
  - intros polygons H. rewrite decodePolygonSet_array. apply collect_ok, H.
  - intros data. destruct data; cbn [is_array];
      try (split; [reflexivity|]; intros _; reflexivity).
    split; [|discriminate].
    rewrite failure_decodePolygonSet.
    change (mismatch 4 (VArray a)) with (first_some (map (mismatch 3) a)).
    intros H. exfalso.
    destruct (first_mismatch_level 3 a _ H) as (j & Hj & Hk).
    symmetry in Hk. exact (level_kind_polygon j Hj Hk).
Qed.

Lemma decodePolygonSet_first_failure_witness :
  decodePolygonSet
    (VArray ([VArray [VArray [VArray [VInt 1; VInt 2]]]]
             ++ VArray [VArray [VString "x"]] :: [VNil])) =
  ([], Some (NotValidPosition (VString "x"))).
Proof.
  apply (proj1 decodePolygonSet_first_failure
           [VArray [VArray [VArray [VInt 1; VInt 2]]]]
           (VArray [VArray [VString "x"]]) [VNil]
           (NotValidPosition (VString "x"))).
  - repeat constructor.
  - reflexivity.
Defined.

(** ** Arity *)

Lemma numbers_nth (coords : list Value) :
  first_non_number coords = None ->
  length (numbers coords) = length coords
  /\ forall i,
       nth_error (numbers coords) i =
       match nth_error coords i with
       | Some v => number v
       | None => None
       end.
Proof.
  induction coords as [|x coords IH]; cbn [first_non_number numbers].
  - intros _. split; [reflexivity|]. intros [|i]; reflexivity.
  - destruct (is_number x) eqn:Hx; [|discriminate].
    intros H. destruct (IH H) as [IHl IHn].
    destruct x; try discriminate; cbn [number length];
      (split; [rewrite IHl; reflexivity|]);
      intros [|n]; cbn [nth_error]; try reflexivity; apply IHn.
Qed.

(** X3.  [decodePosition] checks no arity: when it accepts a sequence, of
    whatever length (none, one, two or more elements), the [Point] has as
    many coordinates as the sequence has elements, the i-th coordinate being
    the number of the i-th element. *)
Theorem decodePosition_arity :
  forall coords p,
    decodePosition (VArray coords) = (p, None) ->
    length p = length coords
    /\ forall i,
         nth_error p i =
         match nth_error coords i with
         | Some v => number v
         | None => None
         end.
Proof.
  intros coords p. rewrite decodePosition_array.
  destruct (first_non_number coords) eqn:E; [discriminate|].
  intros [= <-]. apply numbers_nth, E.
Qed.

Lemma decodePosition_arity_witness :
  length [float64_of_int 9] = length [VInt64 9]
  /\ forall i,
       nth_error [float64_of_int 9] i =
       match nth_error [VInt64 9] i with
       | Some v => number v
       | None => None
       end.
Proof.
  apply (decodePosition_arity [VInt64 9] [float64_of_int 9]). reflexivity.
Defined.

(** ** What the decoder reads and what it writes *)

Lemma decodePayload_reads (geoms : list Geometry * option error)
  (g : Geometry) (object object' : Doc) :
  lookup "coordinates" object = lookup "coordinates" object' ->
  decodePayload geoms g object = decodePayload geoms g object'.
Proof.
  intros H. unfold decodePayload, index. rewrite H. reflexivity.
Qed.

(** X4.  [decodeGeometry] reads the entries under [type], [coordinates] and
    [geometries] and nothing else: two documents that agree on these three
    keys decode alike, whatever other keys they hold and in whatever order
    the keys come. *)
Theorem decodeGeometry_reads_three_keys :
  forall g object object',
    lookup "type" object = lookup "type" object' ->
    lookup "coordinates" object = lookup "coordinates" object' ->
    lookup "geometries" object = lookup "geometries" object' ->
    decodeGeometry g object = decodeGeometry g object'.
Proof.
  intros g object object' Ht Hc Hg.
  rewrite !decodeGeometry_unfold, Ht.
  destruct (lookup "type" object') as [[]|]; try reflexivity.
  unfold index. rewrite Hg.
  apply decodePayload_reads, Hc.
Qed.

Lemma decodeGeometry_reads_three_keys_witness :
  decodeGeometry zeroGeometry
    [("bbox", VArray [VInt 0; VInt 0; VInt 9; VInt 9]);
     ("coordinates", VArray [VInt 1; VInt 2]);
     ("type", VString "Point")] =
  decodeGeometry zeroGeometry
    [("type", VString "Point"); ("coordinates", VArray [VInt 1; VInt 2])].
Proof.
  apply decodeGeometry_reads_three_keys; reflexivity.
Defined.

(** X5.  [decodeGeometry] does not reset its receiver.  Once [type] is a
    string, the receiver's tag becomes that string, and, whether the payload
    decodes or not, every payload field other than the one the tag selects
    keeps the value it had: a receiver used twice carries the payload of the
    earlier decode along. *)
Theorem decodeGeometry_keeps_other_fields :
  forall g object s,
    lookup "type" object = Some (VString s) ->
    let g' := fst (decodeGeometry g object) in
    gType g' = s
    /\ (s <> GeometryPoint -> gPoint g' = gPoint g)
    /\ (s <> GeometryLineString -> gLineString g' = gLineString g)
    /\ (s <> GeometryPolygon -> gPolygon g' = gPolygon g)
    /\ (s <> GeometryMultiPoint -> gMultiPoint g' = gMultiPoint g)
    /\ (s <> GeometryMultiLineString ->
        gMultiLineString g' = gMultiLineString g)
    /\ (s <> GeometryMultiPolygon -> gMultiPolygon g' = gMultiPolygon g)
    /\ (s <> GeometryCollection -> gGeometries g' = gGeometries g).
Proof.
  intros g object s Ht g'. subst g'.
  rewrite decodeGeometry_unfold, Ht. unfold decodePayload.
  cbn [gType set_Type].
  destruct (String.eqb_spec s GeometryPoint) as [E|_].
  { destruct (decodePosition _). cbn. repeat split; congruence. }
  destruct (String.eqb_spec s GeometryMultiPoint) as [E|_].
  { destruct (decodePositionSet _). cbn. repeat split; congruence. }
  destruct (String.eqb_spec s GeometryLineString) as [E|_].
  { destruct (decodePositionSet _). cbn. repeat split; congruence. }
  destruct (String.eqb_spec s GeometryMultiLineString) as [E|_].
  { destruct (decodePathSet _). cbn. repeat split; congruence. }
  destruct (String.eqb_spec s GeometryPolygon) as [E|_].
  { destruct (decodePathSet _). cbn. repeat split; congruence. }
  destruct (String.eqb_spec s GeometryMultiPolygon) as [E|_].
  { destruct (decodePolygonSet _). cbn. repeat split; congruence. }
  destruct (String.eqb_spec s GeometryCollection) as [E|_].
  { destruct (decodeGeometries _). cbn. repeat split; congruence. }
  cbn. repeat split; congruence.
Qed.

Lemma decodeGeometry_keeps_other_fields_witness :
  gPoint
    (fst (decodeGeometry (NewPoint [float64_of_int 1; float64_of_int 2])
            [("type", VString "LineString");
             ("coordinates", VArray [VArray [VInt 3; VInt 4]])])) =
  gPoint (NewPoint [float64_of_int 1; float64_of_int 2]).
Proof.
  pose proof (decodeGeometry_keeps_other_fields
                (NewPoint [float64_of_int 1; float64_of_int 2])
                [("type", VString "LineString");
                 ("coordinates", VArray [VArray [VInt 3; VInt 4]])]
                "LineString" eq_refl) as H.
  cbv zeta in H. destruct H as (_ & H & _).
  apply H. discriminate.
Defined.

(** ** Collections *)

(** X6.  For a document whose [type] is [GeometryCollection]: when
    [geometries] is absent or is not a sequence, decoding fails with the
    not-a-valid-set-of-geometries error printing that value (the nil value
    when the key is absent), the receiver left with the tag and no children;
    when [geometries] is the empty sequence, decoding succeeds with no
    children.  The [coordinates] entry plays no part. *)
Theorem decodeGeometry_collection_geometries :
  forall g object,
    lookup "type" object = Some (VString GeometryCollection) ->
    (is_array (index object "geometries") = false ->
     decodeGeometry g object =
     (set_Geometries (set_Type g GeometryCollection) [],
      Some (NotValidGeometries (index object "geometries"))))
    /\ (lookup "geometries" object = None ->
        decodeGeometry g object =
        (set_Geometries (set_Type g GeometryCollection) [],
         Some (NotValidGeometries VNil)))
    /\ (lookup "geometries" object = Some (VArray []) ->
        decodeGeometry g object =
        (set_Geometries (set_Type g GeometryCollection) [], None)).
Proof.
  intros g object Ht.
  rewrite decodeGeometry_unfold, Ht, decodePayload_collection by reflexivity.
  split; [|split].
  - intros H. rewrite (decodeGeometries_not_array _ H). reflexivity.
  - intros H. unfold index. rewrite H. reflexivity.
  - intros H. unfold index. rewrite H. reflexivity.
Qed.

Lemma decodeGeometry_collection_geometries_witness :
  decodeGeometry zeroGeometry
    [("type", VString "GeometryCollection");
     ("coordinates", VArray [VInt 1; VInt 2])] =
  (NewGeometryCollection [], Some (NotValidGeometries VNil))
  /\ decodeGeometry zeroGeometry
       [("type", VString "GeometryCollection"); ("geometries", VArray [])] =
     (NewGeometryCollection [], None).
Proof.
  split.
  - apply (decodeGeometry_collection_geometries zeroGeometry
             [("type", VString "GeometryCollection");
              ("coordinates", VArray [VInt 1; VInt 2])] eq_refl).
    reflexivity.
  - apply (decodeGeometry_collection_geometries zeroGeometry
             [("type", VString "GeometryCollection");
              ("geometries", VArray [])] eq_refl).
    reflexivity.
Defined.

(** ** The variant predicates *)

(** X7.  At most one of the seven variant predicates holds of a geometry,
    and one does exactly when the tag is one of the seven: a geometry with
    any other tag answers false to all of them. *)
Theorem variant_predicates_exclusive :
  forall g,
    length (filter (fun b => b) (variant_predicates g)) =
    if mem (gType g) recognized_tags then 1 else 0.
Proof.
  intros g. unfold variant_predicates, IsPoint, IsMultiPoint, IsLineString,
    IsMultiLineString, IsPolygon, IsMultiPolygon, IsCollection, mem,
    recognized_tags, coordinate_tags.
  cbn [app existsb].
  destruct (String.eqb_spec (gType g) GeometryPoint) as [->|];
    [reflexivity|].
  destruct (String.eqb_spec (gType g) GeometryMultiPoint) as [->|];
    [reflexivity|].
  destruct (String.eqb_spec (gType g) GeometryLineString) as [->|];
    [reflexivity|].
  destruct (String.eqb_spec (gType g) GeometryMultiLineString) as [->|];
    [reflexivity|].
  destruct (String.eqb_spec (gType g) GeometryPolygon) as [->|];
    [reflexivity|].
  destruct (String.eqb_spec (gType g) GeometryMultiPolygon) as [->|];
    [reflexivity|].
  destruct (String.eqb_spec (gType g) GeometryCollection); reflexivity.
Qed.

(** ** What an error reports *)

Lemma within_array (x y : Value) (pre post : list Value) :
  within x y -> within x (VArray (pre ++ y :: post)).
Proof.
  intros H. apply (within_element x _ y); [|exact H].
  apply in_or_app. right. left. reflexivity.
Qed.

Lemma collect_culprit {A : Type} (dec : Value -> A * option error)
  (l : list Value) (e : error) :
  (forall x e', snd (dec x) = Some e' ->
                exists v, culprit e' = Some v /\ within v x) ->
  snd (collect dec l) = Some e ->
  exists v, culprit e = Some v /\ within v (VArray l).
Proof.
  intros Hdec.
  destruct (collect_cases dec l)
    as [H|(pre & p & post & e' & -> & Hpre & Hp)].
  - rewrite (collect_ok dec l H). discriminate.
  - rewrite (collect_err dec pre post p e' Hpre Hp). cbn. intros [= <-].
    destruct (Hdec p e' Hp) as (v & Hv & Hin).
    exists v. split; [exact Hv|]. apply within_array, Hin.
Qed.

Lemma decodePosition_culprit (data : Value) (e : error) :
  snd (decodePosition data) = Some e ->
  exists v, culprit e = Some v /\ within v data.
Proof.
  destruct data;
    try (cbn; intros [= <-]; eexists; split; [reflexivity|constructor]).
  rewrite decodePosition_array.
  destruct (first_non_number a) as [x|] eqn:E; [|discriminate].
  cbn. intros [= <-]. exists x. split; [reflexivity|].
  apply (within_element x a x); [|constructor].
  clear -E. induction a as [|y a IH]; [discriminate|].
  cbn in E. destruct (is_number y); [right; auto|].
  injection E as ->. left. reflexivity.
Qed.

Lemma decodePositionSet_culprit (data : Value) (e : error) :
  snd (decodePositionSet data) = Some e ->
  exists v, culprit e = Some v /\ within v data.
Proof.
  destruct data;
    try (cbn; intros [= <-]; eexists; split; [reflexivity|constructor]).
  rewrite decodePositionSet_array.
  apply collect_culprit, decodePosition_culprit.
Qed.

Lemma decodePathSet_culprit (data : Value) (e : error) :
  snd (decodePathSet data) = Some e ->
  exists v, culprit e = Some v /\ within v data.
Proof.
  destruct data;
    try (cbn; intros [= <-]; eexists; split; [reflexivity|constructor]).
  rewrite decodePathSet_array.
  apply collect_culprit, decodePositionSet_culprit.
Qed.

(** X8.  An error of a shape extractor pinpoints the mismatch: the value it
    prints is the input itself or an element, at some depth, of the input
    sequence.  Stated for [decodePolygonSet], whose walk goes through the
    three extractors below it. *)
Theorem decodePolygonSet_culprit :
  forall data e,
    snd (decodePolygonSet data) = Some e ->
    exists v, culprit e = Some v /\ within v data.
Proof.
  intros data e. destruct data;
    try (cbn; intros [= <-]; eexists; split; [reflexivity|constructor]).
  rewrite decodePolygonSet_array.
  apply collect_culprit, decodePathSet_culprit.
Qed.

Lemma decodePolygonSet_culprit_witness :
  exists v,
    culprit (NotValidCoordinate (VString "x")) = Some v
    /\ within v (VArray [VArray [VArray [VArray [VInt 1; VString "x"]]]]).
Proof.
  apply (decodePolygonSet_culprit
           (VArray [VArray [VArray [VArray [VInt 1; VString "x"]]]])).
  reflexivity.
Defined.

(** ** Decoding what was encoded, in general *)



Lemma nil_payload_index (rule : omitempty_rule) (g : GoGeometry) :
  nil_payload g = true ->
  lookup "type" (MarshalBSON rule g) = Some (VString (vType g))
  /\ index (MarshalBSON rule g) "coordinates" = VNil
  /\ index (MarshalBSON rule g) "geometries" = VNil.
Proof.
  destruct g as [t p ls pg mp mls mpg gs]. intros H.
  rewrite MarshalBSON_eq. split; [reflexivity|].
  unfold nil_payload, toPureGeometry, coordinates_value in *.
  cbn [vType vPoint vLineString vPolygon vMultiPoint vMultiLineString
         vMultiPolygon vGeometries] in *.
  destruct (payload_written rule _); [|split; reflexivity].
  destruct (String.eqb_spec t GeometryPoint) as [->|_];
    [destruct p; [split; reflexivity|discriminate]|].
  destruct (String.eqb_spec t GeometryMultiPoint) as [->|_];
    [destruct mp; [split; reflexivity|discriminate]|].
  destruct (String.eqb_spec t GeometryLineString) as [->|_];
    [destruct ls; [split; reflexivity|discriminate]|].
  destruct (String.eqb_spec t GeometryMultiLineString) as [->|_];
    [destruct mls; [split; reflexivity|discriminate]|].
  destruct (String.eqb_spec t GeometryPolygon) as [->|_];
    [destruct pg; [split; reflexivity|discriminate]|].
  destruct (String.eqb_spec t GeometryMultiPolygon) as [->|_];
    [destruct mpg; [split; reflexivity|discriminate]|].
  destruct (String.eqb_spec t GeometryCollection) as [->|_];
    [destruct gs; [split; reflexivity|discriminate]|].
  discriminate.
Qed.

(** X16.  A geometry with one of the seven tags whose selected payload
    slice is nil ([NewPoint(nil)], [NewMultiPoint()],
    [NewGeometryCollection()]) does not survive the round trip: its payload
    key is written as null or left out, and decoding the document fails
    with the not-a-sequence error of the tag on the nil value; this under
    either reading of [omitempty] and into any receiver. *)
Theorem decode_encode_nil_payload :
  forall rule g0 g,
    mem (vType g) recognized_tags = true ->
    nil_payload g = true ->
    snd (decodeGeometry g0 (MarshalBSON rule g)) =
    (if String.eqb (vType g) GeometryCollection
     then Some (NotValidGeometries VNil)
     else not_a_sequence (vType g) VNil)
    /\ snd (decodeGeometry g0 (MarshalBSON rule g)) <> None.
Proof.
  intros rule g0 g Ht Hn.
  destruct (nil_payload_index rule g Hn) as (Htype & Hc & Hg).
  rewrite decodeGeometry_unfold, Htype, Hg.
  unfold decodePayload, not_a_sequence. rewrite Hc.
  cbn [gType set_Type].
  unfold mem, recognized_tags, coordinate_tags in Ht. cbn [app existsb] in Ht.
  destruct (String.eqb_spec (vType g) GeometryPoint) as [E|_];
    [rewrite E; split; [reflexivity|discriminate]|].
  destruct (String.eqb_spec (vType g) GeometryMultiPoint) as [E|_];
    [rewrite E; split; [reflexivity|discriminate]|].
  destruct (String.eqb_spec (vType g) GeometryLineString) as [E|_];
    [rewrite E; split; [reflexivity|discriminate]|].
  destruct (String.eqb_spec (vType g) GeometryMultiLineString) as [E|_];
    [rewrite E; split; [reflexivity|discriminate]|].
  destruct (String.eqb_spec (vType g) GeometryPolygon) as [E|_];
    [rewrite E; split; [reflexivity|discriminate]|].
  destruct (String.eqb_spec (vType g) GeometryMultiPolygon) as [E|_];
    [rewrite E; split; [reflexivity|discriminate]|].
  destruct (String.eqb_spec (vType g) GeometryCollection) as [E|_];
    [split; [reflexivity|discriminate]|].
  discriminate.
Qed.

Lemma decode_encode_nil_payload_witness :
  snd (decodeGeometry zeroGeometry
         (MarshalBSON NilInterface
            (mkGo GeometryMultiPoint nil_slice nil_slice nil_slice nil_slice
               nil_slice nil_slice nil_slice))) =
  Some (NotValidPositionSet VNil).
Proof.
  apply (decode_encode_nil_payload NilInterface zeroGeometry
           (mkGo GeometryMultiPoint nil_slice nil_slice nil_slice nil_slice
              nil_slice nil_slice nil_slice)); reflexivity.
Defined.

(** ** What the decoder produces *)

Lemma lookup_In (k : string) (object : Doc) (v : Value) :
  lookup k object = Some v -> exists k', In (k', v) object.
Proof.
  induction object as [|[k' x] object IH]; [discriminate|].
  cbn [lookup]. destruct (String.eqb k' k).
  - intros [= ->]. exists k'. left. reflexivity.
  - intros H. destruct (IH H) as (k'' & Hin). exists k''. right. exact Hin.
Qed.

Lemma decodePayload_selected (geoms : list Geometry * option error)
  (s : GeometryType) (object : Doc) (g : Geometry) :
  (forall gs, geoms = (gs, None) -> map selected gs = gs) ->
  decodePayload geoms (set_Type zeroGeometry s) object = (g, None) ->
  gType g = s /\ selected g = g.
Proof.
  intros Hgeoms. unfold decodePayload. cbn [gType set_Type].
  destruct (String.eqb_spec s GeometryPoint) as [->|N1].
  { destruct (decodePosition _) as [x e]. intros [= <- ->].
    split; reflexivity. }
  destruct (String.eqb_spec s GeometryMultiPoint) as [->|N2].
  { destruct (decodePositionSet _) as [x e]. intros [= <- ->].
    split; reflexivity. }
  destruct (String.eqb_spec s GeometryLineString) as [->|N3].
  { destruct (decodePositionSet _) as [x e]. intros [= <- ->].
    split; reflexivity. }
  destruct (String.eqb_spec s GeometryMultiLineString) as [->|N4].
  { destruct (decodePathSet _) as [x e]. intros [= <- ->].
    split; reflexivity. }
  destruct (String.eqb_spec s GeometryPolygon) as [->|N5].
  { destruct (decodePathSet _) as [x e]. intros [= <- ->].
    split; reflexivity. }
  destruct (String.eqb_spec s GeometryMultiPolygon) as [->|N6].
  { destruct (decodePolygonSet _) as [x e]. intros [= <- ->].
    split; reflexivity. }
  destruct (String.eqb_spec s GeometryCollection) as [->|N7].
  { destruct geoms as [x e]. intros [= <- ->].
    split; [reflexivity|].
    cbn. rewrite (Hgeoms x eq_refl). reflexivity. }
  intros [= <-]. split; [reflexivity|].
  apply String.eqb_neq in N1, N2, N3, N4, N5, N6, N7.
  cbn [selected set_Type zeroGeometry gType gPoint gLineString gPolygon
         gMultiPoint gMultiLineString gMultiPolygon gGeometries].
  rewrite N1, N2, N3, N4, N5, N6, N7. reflexivity.
Qed.

(** Both decoders, over the structure of the value they read. *)
Lemma decoded_selected (v : Value) :
  (forall m g,
      v = VMap m -> decodeGeometry zeroGeometry m = (g, None) ->
      lookup "type" m = Some (VString (gType g)) /\ selected g = g)
  /\ (forall gs, decodeGeometries v = (gs, None) -> map selected gs = gs).
Proof.
  induction v as [| | | | | | |a IH|m IH|] using Value_nested_ind;
    try (split; [discriminate|]; cbn; discriminate).
  - split; [discriminate|].
    intros gs.
    destruct (children_cases a)
      as [H|[(pre & v & post & -> & Hpre & Hv)
            |(pre & vmap & post & e & -> & Hpre & Hv)]].
    + rewrite decodeGeometries_ok by exact H. intros [= <-].
      rewrite map_map. apply map_ext_in. intros x Hx.
      rewrite Forall_forall in IH, H.
      destruct (H x Hx) as (vmap & -> & Hok).
      cbn [child].
      destruct (decodeGeometry zeroGeometry vmap) as [g e] eqn:E.
      cbn in Hok. subst e.
      apply (proj1 (IH (VMap vmap) Hx) vmap g eq_refl E).
    + rewrite decodeGeometries_not_document by assumption. discriminate.
    + rewrite (decodeGeometries_child_error pre post vmap e) by assumption.
      discriminate.
  - split; [|cbn; discriminate].
    intros m' g [= <-]. rewrite decodeGeometry_unfold.
    destruct (lookup "type" m) as [[| | | | | |s| | |]|]; try discriminate.
    intros H.
    destruct (decodePayload_selected
                (decodeGeometries (index m "geometries")) s m g) as [Ht Hs];
      [|exact H|rewrite Ht; split; [reflexivity|exact Hs]].
    intros gs Hgs. unfold index in Hgs.
    destruct (lookup "geometries" m) as [x|] eqn:E; [|discriminate].
    destruct (lookup_In _ _ _ E) as (k' & Hin).
    rewrite Forall_forall in IH.
    apply (proj2 (IH (k', x) Hin) gs Hgs).
Qed.

Lemma writable_NilInterface (g : Geometry) : writable NilInterface g = true.
Proof.
  induction g as [t p ls pg mp mls mpg gs IH] using Geometry_nested_ind.
  cbn [writable payload_written gType gGeometries].
  rewrite orb_negb_l. cbn [andb].
  assert (H : forallb (writable NilInterface) gs = true).
  { apply forallb_forall. rewrite Forall_forall in IH. exact IH. }
  rewrite H. apply orb_true_r.
Qed.

Lemma contents_allocate (g : Geometry) : contents (allocate g) = g.
Proof.
  induction g as [t p ls pg mp mls mpg gs IH] using Geometry_nested_ind.
  cbn [allocate contents vType vPoint vLineString vPolygon vMultiPoint
         vMultiLineString vMultiPolygon vGeometries gType gPoint gLineString
         gPolygon gMultiPoint gMultiLineString gMultiPolygon gGeometries].
  unfold elements4, elements3, elements2. cbn [elements].
  assert (E2 : forall l : list Point, map elements (map alloc l) = l).
  { intros l. rewrite map_map. apply map_id. }
  assert (E3 : forall l : list (list Point),
             map (fun s => map elements (elements s))
               (map (fun ps => alloc (map alloc ps)) l) = l).
  { intros l. rewrite map_map. cbn [elements].
    rewrite <- (map_id l) at 2. apply map_ext. intros a. apply E2. }
  assert (E4 : forall l : list (list (list Point)),
             map (fun s => map (fun s0 => map elements (elements s0))
                             (elements s))
               (map (fun pss => alloc (map (fun ps => alloc (map alloc ps))
                                         pss)) l) = l).
  { intros l. rewrite map_map. cbn [elements].
    rewrite <- (map_id l) at 2. apply map_ext. intros a. apply E3. }
  rewrite !E2, !E3, E4. f_equal.
  rewrite map_map. rewrite <- (map_id gs) at 2.
  apply map_ext_in. rewrite Forall_forall in IH. exact IH.
Qed.

Lemma allocated_Point_alloc (l : Point) : allocated_Point (alloc l) = true.
Proof. apply forallb_forall. reflexivity. Qed.

Lemma allocated_allocate (g : Geometry) : allocated (allocate g) = true.
Proof.
  induction g as [t p ls pg mp mls mpg gs IH] using Geometry_nested_ind.
  assert (A1 : forall l : list Point, forallb allocated_Point (map alloc l)
                                      = true).
  { intros l. apply forallb_forall. intros x Hx.
    apply in_map_iff in Hx as (y & <- & _). apply allocated_Point_alloc. }
  assert (A2 : forall l : list (list Point),
             forallb allocated_Points
               (map (fun ps => alloc (map alloc ps)) l) = true).
  { intros l. apply forallb_forall. intros x Hx.
    apply in_map_iff in Hx as (y & <- & _). apply A1. }
  assert (A3 : forall l : list (list (list Point)),
             forallb allocated_Paths
               (map (fun pss => alloc (map (fun ps => alloc (map alloc ps))
                                         pss)) l) = true).
  { intros l. apply forallb_forall. intros x Hx.
    apply in_map_iff in Hx as (y & <- & _). apply A2. }
  cbn [allocate allocated vType vPoint vLineString vPolygon vMultiPoint
         vMultiLineString vMultiPolygon vGeometries gType gPoint gLineString
         gPolygon gMultiPoint gMultiLineString gMultiPolygon gGeometries].
  repeat match goal with
         | |- (if ?b then _ else _) = true => destruct b
         end; try reflexivity;
    try (apply allocated_Point_alloc);
    try (apply A1); try (apply A2); try (apply A3).
  apply forallb_forall. intros x Hx.
  apply in_map_iff in Hx as (y & <- & Hy).
  rewrite Forall_forall in IH. apply IH, Hy.
Qed.

(** X10.  A geometry decoded into a fresh receiver carries the [type]
    string of the document as its tag, and no payload outside the field the
    tag selects; so do the children of a decoded collection, at every
    depth. *)
Theorem decoded_geometry_selected :
  forall object g,
    decodeGeometry zeroGeometry object = (g, None) ->
    lookup "type" object = Some (VString (gType g)) /\ selected g = g.
Proof.
  intros object g H.
  exact (proj1 (decoded_selected (VMap object)) object g eq_refl H).
Qed.

Lemma decoded_geometry_selected_witness :
  lookup "type"
    [("type", VString "GeometryCollection");
     ("geometries",
      VArray [VMap [("type", VString "Point");
                    ("coordinates", VArray [VInt 1; VInt 2])]])] =
  Some (VString
          (gType (NewGeometryCollection
                    [NewPoint [float64_of_int 1; float64_of_int 2]])))
  /\ selected (NewGeometryCollection
                 [NewPoint [float64_of_int 1; float64_of_int 2]]) =
     NewGeometryCollection [NewPoint [float64_of_int 1; float64_of_int 2]].
Proof.
  apply decoded_geometry_selected. reflexivity.
Defined.

(** X11.  Decoding is a fixed point of the codec: when a document decodes
    into a fresh receiver as [g], the document written for a Go value
    holding [g] with no nil slice in its selected payload (as the decoder,
    which builds every slice with [make], leaves it) decodes to [g] again,
    provided the payload is written (always, when [omitempty] tests the
    interface alone; when it looks through the interface, provided no
    selected payload in [g] is empty). *)
Theorem decode_encode_decode :
  forall rule object g v,
    decodeGeometry zeroGeometry object = (g, None) ->
    contents v = g ->
    allocated v = true ->
    rule = NilInterface \/ writable rule g = true ->
    decodeGeometry zeroGeometry (MarshalBSON rule v) = (g, None).
Proof.
  intros rule object g v Hdec Hv Ha Hw. subst g.
  assert (W : writable rule (contents v) = true).
  { destruct Hw as [->|Hw]; [apply writable_NilInterface|exact Hw]. }
  assert (R : forall c, writable rule (contents c) = true ->
                        allocated c = true ->
                        decodeGeometry zeroGeometry (MarshalBSON rule c) =
                        (selected (contents c), None)).
  { induction c as [t p ls pg mp mls mpg gs IH] using GoGeometry_nested_ind.
    apply decode_after_encode, IH. }
  rewrite (R v W Ha).
  rewrite (proj2 (proj1 (decoded_selected (VMap object)) object _ eq_refl
                    Hdec)).
  reflexivity.
Qed.

Lemma decode_encode_decode_witness :
  decodeGeometry zeroGeometry
    (MarshalBSON NilInterface
       (allocate
          (NewGeometryCollection
             [NewPoint [float64_of_int 1; float64_of_int 2];
              NewMultiPoint []]))) =
  (NewGeometryCollection
     [NewPoint [float64_of_int 1; float64_of_int 2]; NewMultiPoint []],
   None).
Proof.
  apply (decode_encode_decode NilInterface
           [("type", VString "GeometryCollection");
            ("geometries",
             VArray [VMap [("type", VString "Point");
                           ("coordinates", VArray [VInt 1; VInt 2])];
                     VMap [("coordinates", VArray []);
                           ("type", VString "MultiPoint")]])]).
  - reflexivity.
  - reflexivity.
  - reflexivity.
  - left. reflexivity.
Defined.

(** ** The shape of what is written *)








Lemma well_keyed_array (a : list Value) :
  Forall well_keyed a -> well_keyed (VArray a).
Proof.
  cbn [well_keyed]. induction 1 as [|x a Hx _ IH]; [exact I|].
  split; assumption.
Qed.

Lemma well_keyed_map (m : Doc) :
  NoDup (keys m) -> Forall (fun kv => well_keyed (snd kv)) m ->
  well_keyed (VMap m).
Proof.
  intros Hk H. cbn [well_keyed]. split; [exact Hk|]. clear Hk.
  induction H as [|kv m Hkv _ IH]; [exact I|]. split; assumption.
Qed.

Lemma well_keyed_slice {A : Type} (render : A -> Value) (s : slice A) :
  (forall x, In x (elements s) -> well_keyed (render x)) ->
  well_keyed (value_of_slice render s).
Proof.
  intros H. destruct s as [|l]; [exact I|].
  cbn [value_of_slice]. apply well_keyed_array, Forall_forall.
  intros v Hv. apply in_map_iff in Hv as (x & <- & Hx). apply H, Hx.
Qed.

Lemma well_keyed_coordinates (geo : geometry) :
  well_keyed (coordinates_value geo).
Proof.
  assert (W1 : forall p, well_keyed (value_of_Point p)).
  { intros p. apply well_keyed_slice. intros x _. exact I. }
  assert (W2 : forall ps, well_keyed (value_of_Points ps)).
  { intros ps. apply well_keyed_slice. intros x _. apply W1. }
  assert (W3 : forall pss, well_keyed (value_of_Paths pss)).
  { intros pss. apply well_keyed_slice. intros x _. apply W2. }
  unfold coordinates_value. destruct (geoCoordinates geo) as [c|];
    [destruct c; cbn [value_of_coordinates]|exact I].
  - apply W1.
  - apply W2.
  - apply W3.
  - apply well_keyed_slice. intros x _. apply W3.
Qed.

Lemma MarshalBSON_keys_NoDup (rule : omitempty_rule) (g : GoGeometry) :
  NoDup (keys (MarshalBSON rule g)).
Proof.
  rewrite MarshalBSON_keys_eq.
  assert (H : forall k, k <> "type" -> NoDup ["type"; k]).
  { intros k Hk. apply NoDup_cons; [|apply NoDup_cons; [|apply NoDup_nil]].
    - intros [E|[]]. apply Hk. exact E.
    - intros []. }
  destruct (payload_written rule (contents g));
    [destruct (String.eqb (vType g) GeometryCollection)|].
  - apply H. discriminate.
  - apply H. discriminate.
  - apply NoDup_cons; [intros []|apply NoDup_nil].
Qed.

(** X13.  The document written for a geometry binds each of its keys once,
    and so does every child document inside it, at every depth: read back as
    a map, it loses no element. *)
Theorem MarshalBSON_well_keyed :
  forall rule g, well_keyed (VMap (MarshalBSON rule g)).
Proof.
  intros rule.
  induction g as [t p ls pg mp mls mpg gs IH] using GoGeometry_nested_ind.
  apply well_keyed_map; [apply MarshalBSON_keys_NoDup|].
  rewrite MarshalBSON_eq.
  constructor; [exact I|].
  destruct (payload_written rule _); [|constructor].
  destruct (String.eqb _ GeometryCollection); constructor;
    try constructor; cbn [snd].
  - cbn [vGeometries]. apply well_keyed_slice.
    rewrite Forall_forall in IH. exact IH.
  - apply well_keyed_coordinates.
Qed.

(** Rendering forgets nothing of the elements. *)
Lemma value_of_slice_inj {A B : Type} (render : A -> Value) (e : A -> B)
  (s1 s2 : slice A) :
  (forall x y, render x = render y -> e x = e y) ->
  value_of_slice render s1 = value_of_slice render s2 ->
  map e (elements s1) = map e (elements s2).
Proof.
  intros H. destruct s1 as [|l1], s2 as [|l2]; try discriminate;
    [reflexivity|].
  cbn [value_of_slice elements]. intros [= E].
  revert l2 E. induction l1 as [|x l1 IH]; intros [|y l2]; try discriminate;
    [reflexivity|].
  cbn [map]. intros [= Exy E]. rewrite (H x y Exy), (IH l2 E). reflexivity.
Qed.

Lemma value_of_Point_inj (p1 p2 : slice float64) :
  value_of_Point p1 = value_of_Point p2 -> elements p1 = elements p2.
Proof.
  intros E.
  rewrite <- (map_id (elements p1)), <- (map_id (elements p2)).
  apply (value_of_slice_inj VFloat64 (fun x => x)); [|exact E].
  intros x y [= ->]. reflexivity.
Qed.

Lemma value_of_Points_inj (ps1 ps2 : slice (slice float64)) :
  value_of_Points ps1 = value_of_Points ps2 -> elements2 ps1 = elements2 ps2.
Proof.
  apply (value_of_slice_inj value_of_Point elements), value_of_Point_inj.
Qed.

Lemma value_of_Paths_inj (pss1 pss2 : slice (slice (slice float64))) :
  value_of_Paths pss1 = value_of_Paths pss2 ->
  elements3 pss1 = elements3 pss2.
Proof.
  apply (value_of_slice_inj value_of_Points elements2), value_of_Points_inj.
Qed.

Lemma value_of_Polygons_inj
  (psss1 psss2 : slice (slice (slice (slice float64)))) :
  value_of_Polygons psss1 = value_of_Polygons psss2 ->
  elements4 psss1 = elements4 psss2.
Proof.
  apply (value_of_slice_inj value_of_Paths elements3), value_of_Paths_inj.
Qed.

Lemma children_inj (rule : omitempty_rule) (l1 l2 : list GoGeometry) :
  Forall (fun c1 => forall c2,
              writable rule (contents c1) = true ->
              writable rule (contents c2) = true ->
              MarshalBSON rule c1 = MarshalBSON rule c2 ->
              selected (contents c1) = selected (contents c2)) l1 ->
  forallb (writable rule) (map contents l1) = true ->
  forallb (writable rule) (map contents l2) = true ->
  map (fun c => VMap (MarshalBSON rule c)) l1 =
  map (fun c => VMap (MarshalBSON rule c)) l2 ->
  map selected (map contents l1) = map selected (map contents l2).
Proof.
  intros IH. revert l2.
  induction IH as [|c1 l1 Hc1 _ IHl]; intros [|c2 l2]; try discriminate;
    [reflexivity|].
  cbn [map forallb]. intros W1 W2 [= E Erest].
  apply andb_prop in W1 as [W1 W1'], W2 as [W2 W2'].
  rewrite (Hc1 c2 W1 W2 E), (IHl l2 W1' W2' Erest). reflexivity.
Qed.

Lemma MarshalBSON_injective (rule : omitempty_rule)
  (t : GeometryType) (p : slice float64) (ls : slice (slice float64))
  (pg : slice (slice (slice float64))) (mp : slice (slice float64))
  (mls : slice (slice (slice float64)))
  (mpg : slice (slice (slice (slice float64)))) (gs : slice GoGeometry) :
  Forall (fun c1 => forall c2,
              writable rule (contents c1) = true ->
              writable rule (contents c2) = true ->
              MarshalBSON rule c1 = MarshalBSON rule c2 ->
              selected (contents c1) = selected (contents c2))
    (elements gs) ->
  forall g2,
    writable rule (contents (mkGo t p ls pg mp mls mpg gs)) = true ->
    writable rule (contents g2) = true ->
    MarshalBSON rule (mkGo t p ls pg mp mls mpg gs) = MarshalBSON rule g2 ->
    selected (contents (mkGo t p ls pg mp mls mpg gs)) =
    selected (contents g2).
Proof.
  intros IH [t2 p2 ls2 pg2 mp2 mls2 mpg2 gs2] W1 W2 E.
  assert (Et : t2 = t).
  { rewrite !MarshalBSON_eq in E. cbn [vType] in E. congruence. }
  subst t2.
  destruct (String.eqb_spec t GeometryPoint) as [->|N1].
  { pose proof (writable_written _ _ W1 eq_refl) as P1.
    pose proof (writable_written _ _ W2 eq_refl) as P2.
    rewrite !MarshalBSON_eq, P1, P2 in E.
    assert (E' : value_of_Point p = value_of_Point p2) by (injection E as E; exact E).
    apply value_of_Point_inj in E'.
    cbn. rewrite E'. reflexivity. }
  destruct (String.eqb_spec t GeometryMultiPoint) as [->|N2].
  { pose proof (writable_written _ _ W1 eq_refl) as P1.
    pose proof (writable_written _ _ W2 eq_refl) as P2.
    rewrite !MarshalBSON_eq, P1, P2 in E.
    assert (E' : value_of_Points mp = value_of_Points mp2) by (injection E as E; exact E).
    apply value_of_Points_inj in E'.
    cbn -[elements2]. rewrite E'. reflexivity. }
  destruct (String.eqb_spec t GeometryLineString) as [->|N3].
  { pose proof (writable_written _ _ W1 eq_refl) as P1.
    pose proof (writable_written _ _ W2 eq_refl) as P2.
    rewrite !MarshalBSON_eq, P1, P2 in E.
    assert (E' : value_of_Points ls = value_of_Points ls2) by (injection E as E; exact E).
    apply value_of_Points_inj in E'.
    cbn -[elements2]. rewrite E'. reflexivity. }
  destruct (String.eqb_spec t GeometryMultiLineString) as [->|N4].
  { pose proof (writable_written _ _ W1 eq_refl) as P1.
    pose proof (writable_written _ _ W2 eq_refl) as P2.
    rewrite !MarshalBSON_eq, P1, P2 in E.
    assert (E' : value_of_Paths mls = value_of_Paths mls2) by (injection E as E; exact E).
    apply value_of_Paths_inj in E'.
    cbn -[elements3]. rewrite E'. reflexivity. }
  destruct (String.eqb_spec t GeometryPolygon) as [->|N5].
  { pose proof (writable_written _ _ W1 eq_refl) as P1.
    pose proof (writable_written _ _ W2 eq_refl) as P2.
    rewrite !MarshalBSON_eq, P1, P2 in E.
    assert (E' : value_of_Paths pg = value_of_Paths pg2) by (injection E as E; exact E).
    apply value_of_Paths_inj in E'.
    cbn -[elements3]. rewrite E'. reflexivity. }
  destruct (String.eqb_spec t GeometryMultiPolygon) as [->|N6].
  { pose proof (writable_written _ _ W1 eq_refl) as P1.
    pose proof (writable_written _ _ W2 eq_refl) as P2.
    rewrite !MarshalBSON_eq, P1, P2 in E.
    assert (E' : value_of_Polygons mpg = value_of_Polygons mpg2) by (injection E as E; exact E).
    apply value_of_Polygons_inj in E'.
    cbn -[elements4]. rewrite E'. reflexivity. }
  destruct (String.eqb_spec t GeometryCollection) as [->|N7].
  { pose proof (writable_written _ _ W1 eq_refl) as P1.
    pose proof (writable_written _ _ W2 eq_refl) as P2.
    rewrite !MarshalBSON_eq, P1, P2 in E.
    assert (E' : value_of_slice (fun c => VMap (MarshalBSON rule c)) gs =
                 value_of_slice (fun c => VMap (MarshalBSON rule c)) gs2)
      by (injection E as E; exact E).
    clear E P1 P2.
    cbn [writable contents gType gGeometries vType vGeometries] in W1, W2.
    apply andb_prop in W1 as [_ W1], W2 as [_ W2].
    assert (Hk : map selected (match gs with
                               | nil_slice => []
                               | alloc l => map contents l
                               end) =
                 map selected (match gs2 with
                               | nil_slice => []
                               | alloc l => map contents l
                               end)).
    { destruct gs as [|l1], gs2 as [|l2]; try discriminate E';
        [reflexivity|].
      cbn [value_of_slice] in E'. injection E' as E'.
      apply (children_inj rule l1 l2); assumption. }
    cbn. cbn in Hk. rewrite Hk. reflexivity. }
  apply String.eqb_neq in N1, N2, N3, N4, N5, N6, N7.
  cbn [selected contents vType gType gPoint gLineString gPolygon gMultiPoint
         gMultiLineString gMultiPolygon gGeometries].
  rewrite N1, N2, N3, N4, N5, N6, N7. reflexivity.
Qed.

(** X14.  Encoding loses nothing of what it selects: two geometries whose
    payloads are written and for which the same document is written agree
    on their tag and on the elements of the payload their tag selects,
    children included. *)
Theorem MarshalBSON_injective_on_selected :
  forall rule g1 g2,
    writable rule (contents g1) = true ->
    writable rule (contents g2) = true ->
    MarshalBSON rule g1 = MarshalBSON rule g2 ->
    selected (contents g1) = selected (contents g2).
Proof.
  intros rule g1.
  induction g1 as [t p ls pg mp mls mpg gs IH] using GoGeometry_nested_ind.
  intros g2. apply MarshalBSON_injective, IH.
Qed.

Lemma MarshalBSON_injective_on_selected_witness :
  selected
    (contents
       (mkGo "Point" (alloc [float64_of_int 1])
          (alloc [alloc [float64_of_int 2]]) nil_slice nil_slice nil_slice
          nil_slice nil_slice)) =
  selected (contents (allocate (NewPoint [float64_of_int 1]))).
Proof.
  apply (MarshalBSON_injective_on_selected ZeroLength); reflexivity.
Defined.

(** ** The kinds of error a tag can meet *)

(** X15.  Decoding a document with a coordinate-bearing tag fails only with
    the kinds of the levels its walk goes through: [InvalidPosition] for a
    [Point]; that or [InvalidPositionSequence] for a [MultiPoint] or
    [LineString]; those or [InvalidPathSequence] for a [MultiLineString] or
    [Polygon]; those or [InvalidPolygonSequence] for a [MultiPolygon]. *)
Theorem decodeGeometry_error_levels :
  forall g object t d k,
    lookup "type" object = Some (VString t) ->
    required_depth t = Some d ->
    failure (decodeGeometry g object) = Some k ->
    exists j, 1 <= j <= d /\ k = level_kind j.
Proof.
  intros g object t d k Ht Hd Hk.
  rewrite decodeGeometry_unfold, Ht in Hk.
  rewrite (failure_decodePayload _ (set_Type g t) object d Hd) in Hk.
  destruct (mismatch_level d _ k Hk) as (j & Hj & ->).
  assert (Hd1 : 1 <= d).
  { unfold required_depth in Hd.
    repeat match type of Hd with
           | (if ?b then _ else _) = _ => destruct b
           end; inversion Hd; lia. }
  destruct j as [|j].
  - exists 1. split; [lia|reflexivity].
  - exists (S j). split; [lia|reflexivity].
Qed.

Lemma decodeGeometry_error_levels_witness :
  exists j, 1 <= j <= 2 /\ InvalidPosition = level_kind j.
Proof.
  apply (decodeGeometry_error_levels zeroGeometry
           [("type", VString "LineString");
            ("coordinates", VArray [VArray [VInt 1; VBool true]])]
           "LineString" 2 InvalidPosition); reflexivity.
Defined.
